(** * SPY/QQQ options-timing dashboard: the indicator and scoring core

    A shallow embedding of [app.py]: the two functions
    [calculate_indicators] and [calculate_timing_score], which add derived
    columns to a pandas [DataFrame] in place, and the three-way trade-signal
    classification of the display loop.

    Numbers are IEEE-754 binary64 values, as numpy's [float64] columns are:
    Rocq's primitive [float] with its kernel operations, so that every
    elementwise statement of the script ([*], [+], [/], [>], [>=]) is
    evaluated bit for bit.  Facts about arbitrary floats are derived from the
    specification of these operations ([FloatAxioms]).  Rocq has one [nan]:
    payloads of missing values are not distinguished.

    The pandas routines the script calls ([ewm().mean()],
    [rolling().mean()/min()/max()], [cumsum], [rank], [shift], [diff],
    [where], [max(axis=1)]) are library code; they are embedded by their
    documented semantics, with sums taken left to right.  The source columns
    are read as [float64] series (a volume count at its float value).

    A table is a string-keyed map of columns; the script's variables hold
    references into a store of tables, and a statement either returns or
    raises, keeping what it had written. *)

From Stdlib Require Import Floats ZArith List Bool Lia.
From stdpp Require Import gmap strings list.

Open Scope string_scope.
Open Scope float_scope.

(** ** binary64 helpers *)

(** [x != x], the test pandas uses for a missing value. *)
Definition isna (x : float) : bool := negb (x =? x).

(** Conversion of an [int64] value (a 0/1 signal, a count) to [float64]. *)
Definition float_of_int64 (z : Z) : float :=
  if (z <? 0)%Z then - of_uint63 (Uint63.of_Z (- z)) else of_uint63 (Uint63.of_Z z).

Definition float_of_nat (n : nat) : float := float_of_int64 (Z.of_nat n).

(** Python's [x > y] and [x >= y] on floats. *)
Definition gtb (x y : float) : bool := y <? x.
Definition geb (x y : float) : bool := y <=? x.

(** ** Series operations (pandas) *)

(** [s.shift()]: every value moves one bar later; the first bar is missing. *)
Definition shift (xs : list float) : list float :=
  match xs with
  | [] => []
  | _ :: _ => nan :: removelast xs
  end.

(** [s.diff()]: [s - s.shift()]. *)
Definition diff (xs : list float) : list float := zip_with PrimFloat.sub xs (shift xs).

(** [s.where(cond, other)]: keep the value where [cond] holds, else [other]. *)
Definition where_ (cond : list bool) (xs : list float) (other : float) : list float :=
  zip_with (fun (b : bool) x => if b then x else other) cond xs.

(** Left-to-right sum of a window, starting from [0.0]. *)
Definition fsum (xs : list float) : float := fold_left PrimFloat.add xs 0.

Definition mean (xs : list float) : float := fsum xs / float_of_nat (length xs).

Definition fmin (a b : float) : float := if b <? a then b else a.
Definition fmax (a b : float) : float := if a <? b then b else a.

Definition minimum (xs : list float) : float :=
  match xs with
  | [] => nan
  | x :: rest => fold_left fmin rest x
  end.

Definition maximum (xs : list float) : float :=
  match xs with
  | [] => nan
  | x :: rest => fold_left fmax rest x
  end.

(** [s.rolling(window=w).agg()], with pandas' default [min_periods = w]: a
    sliding buffer of the last [w] values; the result is missing until the
    buffer holds [w] values, and whenever one of them is missing. *)
Fixpoint rolling_from (w : nat) (agg : list float -> float)
    (buf xs : list float) : list float :=
  match xs with
  | [] => []
  | x :: rest =>
      let buf' := ((if Nat.ltb (length buf) w then buf else tail buf) ++ [x])%list in
      (if Nat.ltb (length buf') w || existsb isna buf' then nan else agg buf')
        :: rolling_from w agg buf' rest
  end.

Definition rolling (w : nat) (agg : list float -> float) (xs : list float) : list float :=
  rolling_from w agg [] xs.

(** [s.ewm(span=n, adjust=False).mean()]: [y0 = x0],
    [y_t = (1 - alpha) * y_(t-1) + alpha * x_t] with [alpha = 2 / (n + 1)]. *)
Fixpoint ewm_from (alpha y : float) (xs : list float) : list float :=
  match xs with
  | [] => []
  | x :: rest =>
      let y' := (1 - alpha) * y + alpha * x in
      y' :: ewm_from alpha y' rest
  end.

Definition ewm_mean (span : nat) (xs : list float) : list float :=
  match xs with
  | [] => []
  | x :: rest => x :: ewm_from (2 / (float_of_nat span + 1)) x rest
  end.

(** [numpy.cumsum]: running sum, seeded with the first value. *)
Fixpoint np_cumsum_from (acc : float) (xs : list float) : list float :=
  match xs with
  | [] => []
  | x :: rest => (acc + x) :: np_cumsum_from (acc + x) rest
  end.

Definition np_cumsum (xs : list float) : list float :=
  match xs with
  | [] => []
  | x :: rest => x :: np_cumsum_from x rest
  end.

(** [s.cumsum()] ([skipna=True]): missing values count as zero in the running
    sum and stay missing in the result. *)
Definition cumsum (xs : list float) : list float :=
  zip_with (fun x r => if isna x then nan else r) xs
    (np_cumsum (map (fun x => if isna x then 0 else x) xs)).

(** [pd.concat([a, b, c], axis=1).max(axis=1)]: the row-wise maximum of three
    columns, skipping missing values; missing when all three are. *)
Definition nanmax3 (x y z : float) : float :=
  maximum (List.filter (fun v => negb (isna v)) [x; y; z]).

Definition rowmax3 (a b c : list float) : list float :=
  zip_with (fun x yz => nanmax3 x (fst yz) (snd yz)) a (zip b c).

(** [s.rank(pct=True)] (defaults [method='average'], [na_option='keep']):
    a value's rank is the average of the 1-based ascending positions its tie
    group occupies among the values that are present, divided by the number of
    values present; a missing value has no rank. *)
Definition count_lt (xs : list float) (x : float) : nat :=
  length (List.filter (fun y => y <? x) xs).
Definition count_eq (xs : list float) (x : float) : nat :=
  length (List.filter (fun y => y =? x) xs).
Definition count_present (xs : list float) : nat :=
  length (List.filter (fun y => negb (isna y)) xs).

(** Sum of the positions [less+1 .. less+dups]. *)
Definition sum_ranks (less dups : nat) : nat :=
  fold_right Nat.add 0%nat (seq (S less) dups).

Definition rank_pct (xs : list float) : list float :=
  map (fun x =>
         if isna x then nan
         else float_of_nat (sum_ranks (count_lt xs x) (count_eq xs x))
                / float_of_nat (count_eq xs x)
                / float_of_nat (count_present xs))
      xs.

(** Elementwise arithmetic and comparisons between aligned series. *)
Definition s_add : list float -> list float -> list float := zip_with PrimFloat.add.
Definition s_sub : list float -> list float -> list float := zip_with PrimFloat.sub.
Definition s_mul : list float -> list float -> list float := zip_with PrimFloat.mul.
Definition s_div : list float -> list float -> list float := zip_with PrimFloat.div.
Definition s_gt : list float -> list float -> list bool := zip_with gtb.
Definition s_and : list bool -> list bool -> list bool := zip_with andb.

(** [np.where(cond, 1, 0)]: an [int64] array of zeros and ones. *)
Definition np_where_1_0 (cond : list bool) : list Z :=
  map (fun b : bool => if b then 1%Z else 0%Z) cond.

(** ** The table *)

(** A column is a [float64] or an [int64] array. *)
Inductive column :=
  | FloatCol (xs : list float)
  | IntCol (zs : list Z).

(** Arithmetic and comparisons read every column as [float64]. *)
Definition as_float64 (c : column) : list float :=
  match c with
  | FloatCol xs => xs
  | IntCol zs => map float_of_int64 zs
  end.

(** A [DataFrame]: the date index (one entry per bar) and the string-keyed
    columns. *)
Record DataFrame := mkDataFrame {
  index : list Z;
  columns : gmap string column
}.

(** Python variables hold references; the tables live in a store. *)
Abbreviation loc := positive (only parsing).

Inductive exn :=
  | KeyError (key : string)
  | IndexError
  | NameError.

Inductive outcome (A : Type) :=
  | Returns (a : A)
  | Raises (e : exn).
Arguments Returns {A} a.
Arguments Raises {A} e.

(** Statements run against the store and either return or raise; what a
    statement wrote before raising stays written. *)
Definition Py (A : Type) : Type := gmap positive DataFrame -> outcome A * gmap positive DataFrame.

#[export] Instance Py_ret : MRet Py := fun A a h => (Returns a, h).
#[export] Instance Py_bind : MBind Py := fun A B f m h =>
  match m h with
  | (Returns a, h') => f a h'
  | (Raises e, h') => (Raises e, h')
  end.

Definition raise {A} (e : exn) : Py A := fun h => (Raises e, h).

(** [df[key]], read as [float64]. *)
Definition getitem (df : loc) (key : string) : Py (list float) := fun h =>
  match h !! df with
  | None => (Raises NameError, h)
  | Some t =>
      match columns t !! key with
      | None => (Raises (KeyError key), h)
      | Some c => (Returns (as_float64 c), h)
      end
  end.

(** [df[key] = value]: adds the column, or replaces it, in the table itself. *)
Definition setitem (df : loc) (key : string) (value : column) : Py unit := fun h =>
  match h !! df with
  | None => (Raises NameError, h)
  | Some t => (Returns tt, <[df := mkDataFrame (index t) (<[key := value]> (columns t))]> h)
  end.


(** ** [calculate_indicators] (app.py, lines 16-33) *)

(** The right-hand sides of the assignments, as functions of the series they
    read. *)

(** Line 17: [df['Close'].ewm(span=9, adjust=False).mean()]. *)
Definition EMA9 (close : list float) : list float := ewm_mean 9 close.

(** Line 18. *)
Definition EMA21 (close : list float) : list float := ewm_mean 21 close.

(** Line 19: [df['Close'].rolling(window=50).mean()]. *)
Definition SMA50 (close : list float) : list float := rolling 50 mean close.

(** Line 20: [delta = df['Close'].diff()]. *)
Definition delta (close : list float) : list float := diff close.

(** Line 21: [(delta.where(delta > 0, 0)).rolling(window=7).mean()]. *)
Definition gain (close : list float) : list float :=
  rolling 7 mean (where_ (map (fun d => gtb d 0) (delta close)) (delta close) 0).

(** Line 22: [(-delta.where(delta < 0, 0)).rolling(window=7).mean()]. *)
Definition loss (close : list float) : list float :=
  rolling 7 mean (map opp (where_ (map (fun d => d <? 0) (delta close)) (delta close) 0)).

(** Line 23: [rs = gain / loss]. *)
Definition rs (close : list float) : list float := s_div (gain close) (loss close).

(** Line 24: [100 - (100 / (1 + rs))], for one bar and for the series. *)
Definition rsi_of_rs (r : float) : float := 100 - 100 / (1 + r).
Definition RSI (close : list float) : list float := map rsi_of_rs (rs close).

(** Lines 25-26. *)
Definition low_14 (low : list float) : list float := rolling 14 minimum low.
Definition high_14 (high : list float) : list float := rolling 14 maximum high.

(** Line 27: [100 * (df['Close'] - low_14) / (high_14 - low_14)]. *)
Definition Stoch_K (high low close : list float) : list float :=
  s_div (map (fun x => 100 * x) (s_sub close (low_14 low)))
        (s_sub (high_14 high) (low_14 low)).

(** Line 28: [df['Stoch_K'].rolling(window=3).mean()]. *)
Definition Stoch_D (stoch_k : list float) : list float := rolling 3 mean stoch_k.

(** Line 29: [(df['Close'] * df['Volume']).cumsum() / df['Volume'].cumsum()]. *)
Definition VWAP (close volume : list float) : list float :=
  s_div (cumsum (s_mul close volume)) (cumsum volume).

(** Line 30, the three-column frame and its row-wise maximum: the true range. *)
Definition true_range (high low close : list float) : list float :=
  rowmax3 (s_sub high low)
          (map abs (s_sub high (shift close)))
          (map abs (s_sub low (shift close))).

(** Line 30: [... .max(axis=1).rolling(window=14).mean()]. *)
Definition ATR (high low close : list float) : list float :=
  rolling 14 mean (true_range high low close).

(** Line 31: [df['ATR'].rank(pct=True) * 100]. *)
Definition ATR_Percentile (atr : list float) : list float :=
  map (fun r => r * 100) (rank_pct atr).

(** Line 32: [df['Volume'] / df['Volume'].rolling(window=20).mean()]. *)
Definition Vol_Ratio (volume : list float) : list float :=
  s_div volume (rolling 20 mean volume).

(** The function: each statement reads the columns it names and writes its
    column into the table [df] refers to; [return df] hands the reference
    back. *)
Definition calculate_indicators (df : loc) : Py loc :=
  close ← getitem df "Close";
  setitem df "EMA9" (FloatCol (EMA9 close));;
  close ← getitem df "Close";
  setitem df "EMA21" (FloatCol (EMA21 close));;
  close ← getitem df "Close";
  setitem df "SMA50" (FloatCol (SMA50 close));;
  close ← getitem df "Close";
  setitem df "RSI" (FloatCol (RSI close));;
  low ← getitem df "Low";
  high ← getitem df "High";
  close ← getitem df "Close";
  setitem df "Stoch_K" (FloatCol (Stoch_K high low close));;
  stoch_k ← getitem df "Stoch_K";
  setitem df "Stoch_D" (FloatCol (Stoch_D stoch_k));;
  close ← getitem df "Close";
  volume ← getitem df "Volume";
  setitem df "VWAP" (FloatCol (VWAP close volume));;
  high ← getitem df "High";
  low ← getitem df "Low";
  close ← getitem df "Close";
  setitem df "ATR" (FloatCol (ATR high low close));;
  atr ← getitem df "ATR";
  setitem df "ATR_Percentile" (FloatCol (ATR_Percentile atr));;
  volume ← getitem df "Volume";
  setitem df "Vol_Ratio" (FloatCol (Vol_Ratio volume));;
  mret df.

(** ** [calculate_timing_score] (app.py, lines 35-46) *)

(** Line 36. *)
Definition EMA_Signal (ema9 ema21 sma50 : list float) : list Z :=
  np_where_1_0 (s_and (s_gt ema9 ema21) (s_gt ema21 sma50)).

(** Line 37. *)
Definition RSI_Signal (rsi : list float) : list Z :=
  np_where_1_0 (s_and (map (fun r => geb r 35) rsi) (map (fun r => r <=? 50) rsi)).

(** Line 38. *)
Definition Stoch_Signal (stoch_k stoch_d : list float) : list Z :=
  np_where_1_0 (s_and (s_gt stoch_k stoch_d) (map (fun k => k <? 20) stoch_k)).

(** Line 39. *)
Definition VWAP_Signal (close vwap : list float) : list Z :=
  np_where_1_0 (s_gt close vwap).

(** Line 40. *)
Definition IVP_Signal (atr_percentile : list float) : list Z :=
  np_where_1_0 (s_and (map (fun p => geb p 20) atr_percentile)
                      (map (fun p => p <=? 40) atr_percentile)).

(** Line 41. *)
Definition PC_Signal (vol_ratio : list float) : list Z :=
  np_where_1_0 (map (fun v => gtb v 1.2) vol_ratio).

(** Lines 42-44, for one bar: the products are added left to right and the
    sum is scaled by [100]. *)
Definition score (ema rsi stoch vwap ivp pc : float) : float :=
  (ema * 0.3 + rsi * 0.2 + stoch * 0.2 + vwap * 0.1 + ivp * 0.1 + pc * 0.1) * 100.

(** Lines 42-44, on the six signal columns. *)
Definition Timing_Score (ema rsi stoch vwap ivp pc : list float) : list float :=
  map (fun x => x * 100)
    (s_add (s_add (s_add (s_add (s_add
       (map (fun x => x * 0.3) ema)
       (map (fun x => x * 0.2) rsi))
       (map (fun x => x * 0.2) stoch))
       (map (fun x => x * 0.1) vwap))
       (map (fun x => x * 0.1) ivp))
       (map (fun x => x * 0.1) pc)).

(** Line 45: [df['Timing_Score'].rank(pct=True) * 100]. *)
Definition Percentile (timing_score : list float) : list float :=
  map (fun r => r * 100) (rank_pct timing_score).

Definition calculate_timing_score (df : loc) : Py loc :=
  ema9 ← getitem df "EMA9";
  ema21 ← getitem df "EMA21";
  sma50 ← getitem df "SMA50";
  setitem df "EMA_Signal" (IntCol (EMA_Signal ema9 ema21 sma50));;
  rsi ← getitem df "RSI";
  setitem df "RSI_Signal" (IntCol (RSI_Signal rsi));;
  stoch_k ← getitem df "Stoch_K";
  stoch_d ← getitem df "Stoch_D";
  setitem df "Stoch_Signal" (IntCol (Stoch_Signal stoch_k stoch_d));;
  close ← getitem df "Close";
  vwap ← getitem df "VWAP";
  setitem df "VWAP_Signal" (IntCol (VWAP_Signal close vwap));;
  atr_percentile ← getitem df "ATR_Percentile";
  setitem df "IVP_Signal" (IntCol (IVP_Signal atr_percentile));;
  vol_ratio ← getitem df "Vol_Ratio";
  setitem df "PC_Signal" (IntCol (PC_Signal vol_ratio));;
  ema_signal ← getitem df "EMA_Signal";
  rsi_signal ← getitem df "RSI_Signal";
  stoch_signal ← getitem df "Stoch_Signal";
  vwap_signal ← getitem df "VWAP_Signal";
  ivp_signal ← getitem df "IVP_Signal";
  pc_signal ← getitem df "PC_Signal";
  setitem df "Timing_Score"
    (FloatCol (Timing_Score ema_signal rsi_signal stoch_signal vwap_signal ivp_signal pc_signal));;
  timing_score ← getitem df "Timing_Score";
  setitem df "Percentile" (FloatCol (Percentile timing_score));;
  mret df.

(** The per-symbol body of the loading loop (lines 55-56). *)
Definition pipeline (df : loc) : Py loc :=
  df ← calculate_indicators df;
  calculate_timing_score df.

(** ** The trade signal of the display loop (app.py, lines 61-64) *)

(** Line 64: [signal = "Buy Call" if percentile >= 80 else "Hold" if
    percentile >= 50 else "Avoid"]. *)
Definition signal (percentile : float) : string :=
  if geb percentile 80 then "Buy Call"
  else if geb percentile 50 then "Hold"
  else "Avoid".

(** [len(df)]: the number of bars. *)
Definition len (df : loc) : Py nat := fun h =>
  match h !! df with
  | None => (Raises NameError, h)
  | Some t => (Returns (length (index t)), h)
  end.

(** Lines 61-64: [latest = df.iloc[-1]] (an [IndexError] on a table without
    bars), [percentile = latest['Percentile']], [score = latest['Timing_Score']],
    then the classification. *)
Definition latest_signal (df : loc) : Py string :=
  bars ← len df;
  if Nat.eqb bars 0 then raise IndexError
  else
    percentile ← getitem df "Percentile";
    score ← getitem df "Timing_Score";
    match last percentile with
    | None => raise IndexError
    | Some p => mret (signal p)
    end.

(** ** What the two functions leave in the table *)

(** The columns after [calculate_indicators], given the four series it reads. *)
Definition indicator_columns (high low close volume : list float)
    (cols : gmap string column) : gmap string column :=
  <["Vol_Ratio" := FloatCol (Vol_Ratio volume)]>
  (<["ATR_Percentile" := FloatCol (ATR_Percentile (ATR high low close))]>
  (<["ATR" := FloatCol (ATR high low close)]>
  (<["VWAP" := FloatCol (VWAP close volume)]>
  (<["Stoch_D" := FloatCol (Stoch_D (Stoch_K high low close))]>
  (<["Stoch_K" := FloatCol (Stoch_K high low close)]>
  (<["RSI" := FloatCol (RSI close)]>
  (<["SMA50" := FloatCol (SMA50 close)]>
  (<["EMA21" := FloatCol (EMA21 close)]>
  (<["EMA9" := FloatCol (EMA9 close)]> cols))))))))).

(** The ten series [calculate_timing_score] reads. *)
Record indicators := mkIndicators {
  i_ema9 : list float;
  i_ema21 : list float;
  i_sma50 : list float;
  i_rsi : list float;
  i_stoch_k : list float;
  i_stoch_d : list float;
  i_close : list float;
  i_vwap : list float;
  i_atr_percentile : list float;
  i_vol_ratio : list float
}.

Definition signal_scores (x : indicators) : list float :=
  Timing_Score
    (map float_of_int64 (EMA_Signal (i_ema9 x) (i_ema21 x) (i_sma50 x)))
    (map float_of_int64 (RSI_Signal (i_rsi x)))
    (map float_of_int64 (Stoch_Signal (i_stoch_k x) (i_stoch_d x)))
    (map float_of_int64 (VWAP_Signal (i_close x) (i_vwap x)))
    (map float_of_int64 (IVP_Signal (i_atr_percentile x)))
    (map float_of_int64 (PC_Signal (i_vol_ratio x))).

(** The columns after [calculate_timing_score]. *)
Definition score_columns (x : indicators) (cols : gmap string column) : gmap string column :=
  <["Percentile" := FloatCol (Percentile (signal_scores x))]>
  (<["Timing_Score" := FloatCol (signal_scores x)]>
  (<["PC_Signal" := IntCol (PC_Signal (i_vol_ratio x))]>
  (<["IVP_Signal" := IntCol (IVP_Signal (i_atr_percentile x))]>
  (<["VWAP_Signal" := IntCol (VWAP_Signal (i_close x) (i_vwap x))]>
  (<["Stoch_Signal" := IntCol (Stoch_Signal (i_stoch_k x) (i_stoch_d x))]>
  (<["RSI_Signal" := IntCol (RSI_Signal (i_rsi x))]>
  (<["EMA_Signal" := IntCol (EMA_Signal (i_ema9 x) (i_ema21 x) (i_sma50 x))]> cols))))))).

(** Reading a column of a table as [float64]. *)
Definition series (t : DataFrame) (key : string) : option (list float) :=
  as_float64 <$> columns t !! key.

(** The indicator series as [calculate_indicators] leaves them, in the shape
    [calculate_timing_score] reads them. *)
Definition computed_indicators (high low close volume : list float) : indicators :=
  mkIndicators (EMA9 close) (EMA21 close) (SMA50 close) (RSI close)
    (Stoch_K high low close) (Stoch_D (Stoch_K high low close)) close
    (VWAP close volume) (ATR_Percentile (ATR high low close)) (Vol_Ratio volume).

(** The columns each function assigns. *)
Definition indicator_names : list string :=
  ["EMA9"; "EMA21"; "SMA50"; "RSI"; "Stoch_K"; "Stoch_D"; "VWAP"; "ATR";
   "ATR_Percentile"; "Vol_Ratio"].

Definition signal_names : list string :=
  ["EMA_Signal"; "RSI_Signal"; "Stoch_Signal"; "VWAP_Signal"; "IVP_Signal"; "PC_Signal"].

Definition score_names : list string := (signal_names ++ ["Timing_Score"; "Percentile"])%list.

(** The columns of the data source. *)
Definition input_names : list string := ["Open"; "High"; "Low"; "Close"; "Volume"].

(** [unchanged written df h h']: between the stores [h] and [h'] nothing
    moved except, in the table [df] refers to, columns named in [written]:
    every other table is the same, the table of [df] is still there with the
    same date index, and each of its columns outside [written] is the same. *)
Definition unchanged (written : list string) (df : loc)
    (h h' : gmap positive DataFrame) : Prop :=
  (forall r, r <> df -> h' !! r = h !! r) /\
  index <$> h' !! df = index <$> h !! df /\
  (forall key, key ∉ written ->
     (fun t => columns t !! key) <$> h' !! df = (fun t => columns t !! key) <$> h !! df).

(** A statement that keeps [unchanged] from any starting store. *)
Definition preserves {A} (written : list string) (df : loc) (m : Py A) : Prop :=
  forall h, unchanged written df h (m h).2.

(** A statement whose returned values all satisfy [P]. *)
Definition returns_only {A} (P : A -> Prop) (m : Py A) : Prop :=
  forall h a h', m h = (Returns a, h') -> P a.

(** ** Vocabulary of the statements *)

(** A store in which [df] refers to a table holding the four series the
    indicators are computed from. *)
Definition holds (h : gmap positive DataFrame) (df : loc)
    (high low close volume : list float) : Prop :=
  exists t, h !! df = Some t /\
    series t "High" = Some high /\ series t "Low" = Some low /\
    series t "Close" = Some close /\ series t "Volume" = Some volume.

(** A store in which [df] refers to a table holding the ten series the score
    is computed from. *)
Definition has_indicators (h : gmap positive DataFrame) (df : loc) (x : indicators) : Prop :=
  exists t, h !! df = Some t /\
    series t "EMA9" = Some (i_ema9 x) /\ series t "EMA21" = Some (i_ema21 x) /\
    series t "SMA50" = Some (i_sma50 x) /\ series t "RSI" = Some (i_rsi x) /\
    series t "Stoch_K" = Some (i_stoch_k x) /\ series t "Stoch_D" = Some (i_stoch_d x) /\
    series t "Close" = Some (i_close x) /\ series t "VWAP" = Some (i_vwap x) /\
    series t "ATR_Percentile" = Some (i_atr_percentile x) /\
    series t "Vol_Ratio" = Some (i_vol_ratio x).

(** The column [key] of the table a function returns, when it returns. *)
Definition result_column (m : Py loc) (h : gmap positive DataFrame)
    (key : string) : option column :=
  match m h with
  | (Returns r, h') => t ← h' !! r; columns t !! key
  | (Raises _, _) => None
  end.

Definition result_series (m : Py loc) (h : gmap positive DataFrame)
    (key : string) : option (list float) :=
  as_float64 <$> result_column m h key.

(** A one-table store. *)
Definition store_of (df : loc) (t : DataFrame) : gmap positive DataFrame := {[ df := t ]}.

(** A table that already holds the ten indicator columns. *)
Definition indicator_table (dates : list Z) (x : indicators) : DataFrame :=
  mkDataFrame dates
    (<["EMA9" := FloatCol (i_ema9 x)]> (<["EMA21" := FloatCol (i_ema21 x)]>
    (<["SMA50" := FloatCol (i_sma50 x)]> (<["RSI" := FloatCol (i_rsi x)]>
    (<["Stoch_K" := FloatCol (i_stoch_k x)]> (<["Stoch_D" := FloatCol (i_stoch_d x)]>
    (<["Close" := FloatCol (i_close x)]> (<["VWAP" := FloatCol (i_vwap x)]>
    (<["ATR_Percentile" := FloatCol (i_atr_percentile x)]>
    (<["Vol_Ratio" := FloatCol (i_vol_ratio x)]> ∅)))))))))).

(** A bit (a signal value) is zero or one. *)
Definition is_bit (z : Z) : Prop := z = 0%Z \/ z = 1%Z.

(** A score is a number between 0 and 100. *)
Definition in_0_100 (s : float) : Prop :=
  isna s = false /\ (0 <=? s) = true /\ (s <=? 100) = true.

(** A table as the data source delivers it: five [float64] columns. *)
Definition history (dates : list Z) (open high low close volume : list float) : DataFrame :=
  mkDataFrame dates
    (<["Open" := FloatCol open]> (<["High" := FloatCol high]> (<["Low" := FloatCol low]>
    (<["Close" := FloatCol close]> (<["Volume" := FloatCol volume]> ∅))))).

(** The trailing window of [w] bars that ends at bar [i]: the last [w] of the
    first [i + 1] values. *)
Definition window (w i : nat) (xs : list float) : list float :=
  drop (S i - w) (take (S i) xs).




(** One bar on which every one of the six conditions holds. *)
Definition all_true_bar : indicators :=
  mkIndicators [3] [2] [1] [40] [10] [5] [2] [1] [30] [2].

(** One bar on which every indicator is missing. *)
Definition all_missing_bar : indicators :=
  mkIndicators [nan] [nan] [nan] [nan] [nan] [nan] [nan] [nan] [nan] [nan].

(** [in_place written f]: called on any store and reference, [f] changes
    nothing but columns named in [written] of the table referred to (the date
    index, the five source columns and every other column keep their values,
    other tables are untouched, also when [f] raises), and when it returns it
    returns the reference it was given, with every column of [written]
    present in that table. *)
Definition in_place (written : list string) (f : loc -> Py loc) : Prop :=
  forall (df : loc) (h : gmap positive DataFrame),
    unchanged written df h (f df h).2 /\
    (forall key, key ∈ input_names ->
       (fun t => columns t !! key) <$> (f df h).2 !! df
       = (fun t => columns t !! key) <$> h !! df) /\
    (forall r, (f df h).1 = Returns r ->
       r = df /\
       exists t', (f df h).2 !! df = Some t' /\
                  forall key, key ∈ written -> is_Some (columns t' !! key)).

(** A three-bar table, as the data source might deliver it. *)
Definition highs3 : list float := [2; 3; 4].
Definition lows3 : list float := [0.5; 1; 2].
Definition closes3 : list float := [1.5; 2.5; 3.5].
Definition volumes3 : list float := [100; 200; 300].

Definition three_bars : DataFrame :=
  history [20240102; 20240103; 20240104]%Z [1; 2; 3] highs3 lows3 closes3 volumes3.

(** All the columns the pipeline assigns. *)
Definition derived_names : list string := (indicator_names ++ score_names)%list.

(** Fifteen bars of a steadily rising market: each close is one above the
    previous one, each high one above and each low one below the close. *)
Definition closes15 : list float :=
  [10; 11; 12; 13; 14; 15; 16; 17; 18; 19; 20; 21; 22; 23; 24].
Definition highs15 : list float :=
  [11; 12; 13; 14; 15; 16; 17; 18; 19; 20; 21; 22; 23; 24; 25].
Definition lows15 : list float :=
  [9; 10; 11; 12; 13; 14; 15; 16; 17; 18; 19; 20; 21; 22; 23].
Definition volumes15 : list float :=
  [1000; 1000; 1000; 1000; 1000; 1000; 1000; 1000; 1000; 1000; 1000; 1000; 1000; 1000; 1000].
Definition dates15 : list Z :=
  [1; 2; 3; 4; 5; 6; 7; 8; 9; 10; 11; 12; 13; 14; 15]%Z.

Definition rising_market : DataFrame :=
  history dates15 closes15 highs15 lows15 closes15 volumes15.

(** [zero_or_nan x]: [x] is [+0.0], [-0.0] or missing. *)
Definition zero_or_nan (x : float) : Prop :=
  (exists s, Prim2SF x = S754_zero s) \/ Prim2SF x = S754_nan.

(** [missing_at xs i]: the series has a value at bar [i] and it is missing. *)
Definition missing_at (xs : list float) (i : nat) : Prop :=
  exists x, xs !! i = Some x /\ isna x = true.

(** Sixteen bars that all close at 100 after trading between 99 and 101. *)
Definition range_bound_market : DataFrame :=
  history (map Z.of_nat (seq 1 16)) (replicate 16 100)
    (replicate 16 101) (replicate 16 99) (replicate 16 100) (replicate 16 5000).



(** ** What an interrupted [calculate_indicators] leaves behind *)

(** The columns written by lines 17-24, which read [Close] only. *)
Definition close_columns (close : list float) (cols : gmap string column) : gmap string column :=
  <["RSI" := FloatCol (RSI close)]>
  (<["SMA50" := FloatCol (SMA50 close)]>
  (<["EMA21" := FloatCol (EMA21 close)]>
  (<["EMA9" := FloatCol (EMA9 close)]> cols))).

(** The columns written by lines 17-28, which read [Close], [Low] and [High]. *)
Definition price_columns (high low close : list float)
    (cols : gmap string column) : gmap string column :=
  <["Stoch_D" := FloatCol (Stoch_D (Stoch_K high low close))]>
  (<["Stoch_K" := FloatCol (Stoch_K high low close)]> (close_columns close cols)).

(** A table without its [Volume] column. *)
Definition three_bars_no_volume : DataFrame :=
  mkDataFrame (index three_bars) (delete "Volume" (columns three_bars)).

(** The values [Timing_Score] can take: the 64 combinations of the six
    signals give twelve different floats. *)
Definition score_values : list float :=
  [0; 10; 20; 30; 30.000000000000004; 40; 50; 60; 70; 80;
   89.999999999999986; 99.999999999999986].

(** The number of values in a column. *)
Definition column_length (c : column) : nat :=
  match c with
  | FloatCol xs => length xs
  | IntCol zs => length zs
  end.

(** ** The gauge of the display loop (app.py, lines 70-76) *)

(** Line 75: the colour of the gauge bar,
    ["green" if percentile >= 80 else "yellow" if percentile >= 50 else "red"]. *)
Definition bar_color (percentile : float) : string :=
  if geb percentile 80 then "green"
  else if geb percentile 50 then "yellow"
  else "red".

(** Line 76: the value at which the gauge draws its threshold line. *)
Definition gauge_threshold : float := 80.

(** A table without bars: the five source columns are there and empty. *)
Definition no_bars : DataFrame := history [] [] [] [] [] [].

(** A table of one bar. *)
Definition one_bar : DataFrame := history [20240102%Z] [9] [11] [8] [10] [1000].

(** ** The price changes behind RSI (app.py, lines 20-22) *)



(** Two bars that differ in one signal: RSI is missing on the first, so its
    [RSI_Signal] is 0; every other signal is 1 on both. *)
Definition two_bars : indicators :=
  mkIndicators [3; 3] [2; 2] [1; 1] [nan; 40] [10; 10] [5; 5] [2; 2] [1; 1] [30; 30] [2; 2].
(** ** The script (app.py, lines 11-14 and 51-64) *)

(** The data provider is outside the program: [yf symbol period interval] is
    the table that [yf.Ticker(symbol).history(period=..., interval=...)]
    answers during one run of the script. *)
Definition provider : Type := string -> string -> string -> DataFrame.

(** Lines 11-14: the answer is a new table in the store. *)
Definition fetch_data (yf : provider) (symbol period interval : string) : Py loc := fun h =>
  let df := fresh (dom h) in
  (Returns df, <[df := yf symbol period interval]> h).

(** A [dict] keeps its keys in insertion order; [data[key] = v] replaces the
    value of a key that is present and appends a new key. *)
Fixpoint dict_set (data : list (string * loc)) (key : string) (v : loc) : list (string * loc) :=
  match data with
  | [] => [(key, v)]
  | (k, v0) :: rest =>
      if String.eqb k key then (k, v) :: rest else (k, v0) :: dict_set rest key v
  end.

(** Line 51. *)
Definition symbols : list string := ["SPY"; "QQQ"].

(** Lines 53-57: the loading loop, [fetch_data(symbol)] taking the defaults
    [period="1y"] and [interval="1d"]. *)
Fixpoint load_loop (yf : provider) (syms : list string) (data : list (string * loc))
    : Py (list (string * loc)) :=
  match syms with
  | [] => mret data
  | symbol :: rest =>
      df ← fetch_data yf symbol "1y" "1d";
      df ← calculate_indicators df;
      df ← calculate_timing_score df;
      load_loop yf rest (dict_set data symbol df)
  end.

(** Lines 60-64: the display loop over [data.items()]; the result lists the
    trade signal shown for each symbol, in the order of the loop. *)
Fixpoint display_loop (items : list (string * loc)) : Py (list (string * string)) :=
  match items with
  | [] => mret []
  | (symbol, df) :: rest =>
      signal ← latest_signal df;
      shown ← display_loop rest;
      mret ((symbol, signal) :: shown)
  end.

(** Lines 51-64. *)
Definition script (yf : provider) : Py (list (string * string)) :=
  data ← load_loop yf symbols [];
  display_loop data.

(** A table as the provider delivers it: [High], [Low], [Close] and [Volume]
    are there and hold one value per date. *)
Definition delivers (t : DataFrame) (high low close volume : list float) : Prop :=
  series t "High" = Some high /\ series t "Low" = Some low /\
  series t "Close" = Some close /\ series t "Volume" = Some volume /\
  length high = length (index t) /\ length low = length (index t) /\
  length close = length (index t) /\ length volume = length (index t).


Definition no_columns_for_QQQ : provider := fun symbol _ _ =>
  if String.eqb symbol "SPY" then three_bars else mkDataFrame [] ∅.
Definition no_bars_for_QQQ : provider := fun symbol _ _ =>
  if String.eqb symbol "SPY" then three_bars else no_bars.

(** * Properties *)

(** ** Running statements *)

Lemma bind_returns {A B} (m : Py A) (f : A -> Py B) h a h' :
  m h = (Returns a, h') -> (m ≫= f) h = f a h'.
Proof. intros Hm. unfold mbind, Py_bind. now rewrite Hm. Qed.

Lemma bind_raises {A B} (m : Py A) (f : A -> Py B) h e h' :
  m h = (Raises e, h') -> (m ≫= f) h = (Raises e, h').
Proof. intros Hm. unfold mbind, Py_bind. now rewrite Hm. Qed.

Lemma getitem_insert df key (t : DataFrame) (h : gmap positive DataFrame) xs :
  series t key = Some xs ->
  getitem df key (<[df := t]> h) = (Returns xs, <[df := t]> h).
Proof.
  unfold series, getitem. intros Hk. rewrite lookup_insert_eq.
  destruct (columns t !! key) as [c|]; simpl in Hk; [|discriminate].
  now injection Hk as ->.
Qed.

Lemma setitem_insert df key v (t : DataFrame) (h : gmap positive DataFrame) :
  setitem df key v (<[df := t]> h)
  = (Returns tt, <[df := mkDataFrame (index t) (<[key := v]> (columns t))]> h).
Proof. unfold setitem. now rewrite lookup_insert_eq, insert_insert_eq. Qed.

Ltac series_lookup :=
  unfold series, indicator_columns, score_columns in *; cbn [columns index];
  repeat (rewrite lookup_insert_ne by discriminate);
  first [ rewrite lookup_insert_eq; reflexivity | eassumption ].

Ltac py_step :=
  first
    [ erewrite bind_returns; [| apply getitem_insert; series_lookup ]
    | erewrite bind_returns; [| apply setitem_insert ] ];
  cbn [columns index].

Lemma calculate_indicators_run df (h : gmap positive DataFrame) t high low close volume :
  h !! df = Some t ->
  series t "High" = Some high ->
  series t "Low" = Some low ->
  series t "Close" = Some close ->
  series t "Volume" = Some volume ->
  calculate_indicators df h
  = (Returns df,
     <[df := mkDataFrame (index t) (indicator_columns high low close volume (columns t))]> h).
Proof.
  intros Ht Hhi Hlo Hcl Hvo. unfold series in *.
  rewrite <- (insert_id h df t Ht) at 1.
  unfold calculate_indicators.
  repeat py_step.
  reflexivity.
Qed.

Lemma calculate_timing_score_run df (h : gmap positive DataFrame) t x :
  h !! df = Some t ->
  series t "EMA9" = Some (i_ema9 x) ->
  series t "EMA21" = Some (i_ema21 x) ->
  series t "SMA50" = Some (i_sma50 x) ->
  series t "RSI" = Some (i_rsi x) ->
  series t "Stoch_K" = Some (i_stoch_k x) ->
  series t "Stoch_D" = Some (i_stoch_d x) ->
  series t "Close" = Some (i_close x) ->
  series t "VWAP" = Some (i_vwap x) ->
  series t "ATR_Percentile" = Some (i_atr_percentile x) ->
  series t "Vol_Ratio" = Some (i_vol_ratio x) ->
  calculate_timing_score df h
  = (Returns df, <[df := mkDataFrame (index t) (score_columns x (columns t))]> h).
Proof.
  intros Ht H1 H2 H3 H4 H5 H6 H7 H8 H9 H10. unfold series in *.
  rewrite <- (insert_id h df t Ht) at 1.
  unfold calculate_timing_score.
  repeat py_step.
  reflexivity.
Qed.

Lemma pipeline_run df (h : gmap positive DataFrame) t high low close volume :
  h !! df = Some t ->
  series t "High" = Some high ->
  series t "Low" = Some low ->
  series t "Close" = Some close ->
  series t "Volume" = Some volume ->
  pipeline df h
  = (Returns df,
     <[df := mkDataFrame (index t)
               (score_columns (computed_indicators high low close volume)
                  (indicator_columns high low close volume (columns t)))]> h).
Proof.
  intros Ht Hhi Hlo Hcl Hvo. unfold pipeline.
  erewrite bind_returns by (eapply calculate_indicators_run; eassumption).
  rewrite (calculate_timing_score_run df _
             (mkDataFrame (index t) (indicator_columns high low close volume (columns t)))
             (computed_indicators high low close volume)).
  - now rewrite insert_insert_eq.
  - apply lookup_insert_eq.
  - series_lookup.
  - series_lookup.
  - series_lookup.
  - series_lookup.
  - series_lookup.
  - series_lookup.
  - series_lookup.
  - series_lookup.
  - series_lookup.
  - series_lookup.
Qed.

(** ** binary64 facts

    The kernel evaluates float operations on literals; facts about arbitrary
    floats go through the specification of the operations on [spec_float]. *)

Lemma SFcompare_refl x : x <> S754_nan -> SFcompare x x = Some Eq.
Proof.
  destruct x as [s|s| |s m e]; intros Hx; try congruence; simpl.
  - reflexivity.
  - now destruct s.
  - rewrite Z.compare_refl, Pos.compare_cont_refl. now destruct s.
Qed.

Lemma SFcompare_antisym x y :
  SFcompare y x = option_map CompOpp (SFcompare x y).
Proof.
  destruct x as [sx|sx| |sx mx ex], y as [sy|sy| |sy my ey]; simpl;
    try reflexivity; try (now destruct sx); try (now destruct sy);
    try (now destruct sx, sy).
  destruct sx, sy; simpl; try reflexivity;
    rewrite (Z.compare_antisym ex ey); destruct (ex ?= ey)%Z; simpl; try reflexivity;
    pose proof (Pos.compare_cont_antisym mx my Eq) as H; simpl in H; rewrite <- H;
    now destruct (Pos.compare_cont Eq mx my).
Qed.

Lemma SFcompare_nan_l y : SFcompare S754_nan y = None.
Proof. reflexivity. Qed.

Lemma SFcompare_nan_r x : SFcompare x S754_nan = None.
Proof. now destruct x. Qed.

Lemma SFcompare_None x y :
  SFcompare x y = None -> x = S754_nan \/ y = S754_nan.
Proof.
  destruct x as [sx|sx| |sx mx ex], y as [sy|sy| |sy my ey]; simpl;
    intros H; try discriminate; auto.
Qed.

Lemma isna_spec x : isna x = true <-> Prim2SF x = S754_nan.
Proof.
  unfold isna. rewrite FloatAxioms.eqb_spec. unfold SFeqb. split.
  - intros H. destruct (Prim2SF x) as [s|s| |s m e] eqn:E; trivial;
      rewrite SFcompare_refl in H by congruence; discriminate.
  - intros ->. reflexivity.
Qed.


Lemma isna_false x : isna x = false <-> Prim2SF x <> S754_nan.
Proof.
  rewrite <- isna_spec. destruct (isna x); split; congruence.
Qed.

Lemma leb_ltb_eqb x y : (x <=? y) = (x <? y) || (x =? y).
Proof.
  rewrite FloatAxioms.leb_spec, FloatAxioms.ltb_spec, FloatAxioms.eqb_spec. unfold SFleb, SFltb, SFeqb.
  now destruct (SFcompare (Prim2SF x) (Prim2SF y)) as [[]|].
Qed.


Lemma ltb_leb_false x y : (x <? y) = true -> (y <=? x) = false.
Proof.
  rewrite FloatAxioms.ltb_spec, FloatAxioms.leb_spec. unfold SFltb, SFleb.
  rewrite (SFcompare_antisym (Prim2SF x) (Prim2SF y)).
  now destruct (SFcompare (Prim2SF x) (Prim2SF y)) as [[]|].
Qed.

Lemma leb_false_ltb x y :
  (x <=? y) = false -> isna x = false -> isna y = false -> (y <? x) = true.
Proof.
  rewrite FloatAxioms.ltb_spec, FloatAxioms.leb_spec, !isna_false. unfold SFltb, SFleb.
  rewrite (SFcompare_antisym (Prim2SF x) (Prim2SF y)).
  destruct (SFcompare (Prim2SF x) (Prim2SF y)) as [[]|] eqn:E; simpl; try congruence.
  intros _ Hx Hy. destruct (SFcompare_None _ _ E); contradiction.
Qed.

Lemma leb_isna_l x y : isna x = true -> (x <=? y) = false.
Proof.
  rewrite isna_spec, FloatAxioms.leb_spec. intros ->. reflexivity.
Qed.

Lemma leb_isna_r x y : isna y = true -> (x <=? y) = false.
Proof.
  rewrite isna_spec, FloatAxioms.leb_spec. intros ->. unfold SFleb.
  now rewrite SFcompare_nan_r.
Qed.

Lemma ltb_isna_l x y : isna x = true -> (x <? y) = false.
Proof.
  rewrite isna_spec, FloatAxioms.ltb_spec. intros ->. reflexivity.
Qed.

Lemma ltb_isna_r x y : isna y = true -> (x <? y) = false.
Proof.
  rewrite isna_spec, FloatAxioms.ltb_spec. intros ->. unfold SFltb.
  now rewrite SFcompare_nan_r.
Qed.

Lemma leb_true_notna x y : (x <=? y) = true -> isna x = false /\ isna y = false.
Proof.
  intros H. split.
  - destruct (isna x) eqn:E; trivial. now rewrite (leb_isna_l x y E) in H.
  - destruct (isna y) eqn:E; trivial. now rewrite (leb_isna_r x y E) in H.
Qed.

Lemma SFcompare_lt_trans x y z :
  SFcompare x y = Some Lt -> SFcompare y z = Some Lt -> SFcompare x z = Some Lt.
Proof.
  destruct x as [sx|sx| |sx mx ex], y as [sy|sy| |sy my ey], z as [sz|sz| |sz mz ez];
    simpl; try discriminate; try reflexivity;
    try (destruct sx; discriminate || reflexivity);
    try (destruct sy; discriminate || reflexivity);
    try (destruct sz; discriminate || reflexivity);
    try (destruct sx, sy; discriminate || reflexivity);
    try (destruct sx, sz; discriminate || reflexivity);
    try (destruct sy, sz; discriminate || reflexivity);
    try (destruct sx, sy, sz; discriminate || reflexivity).
  change (Pos.compare_cont Eq mx my) with (mx ?= my)%positive.
  change (Pos.compare_cont Eq my mz) with (my ?= mz)%positive.
  change (Pos.compare_cont Eq mx mz) with (mx ?= mz)%positive.
  destruct sx, sy, sz; try discriminate; try reflexivity;
    destruct (Z.compare_spec ex ey), (Z.compare_spec ey ez), (Z.compare_spec ex ez);
    try discriminate; try reflexivity; try lia;
    destruct (Pos.compare_spec mx my), (Pos.compare_spec my mz), (Pos.compare_spec mx mz);
    simpl; try discriminate; try reflexivity; try lia.
Qed.

Lemma ltb_trans x y z : (x <? y) = true -> (y <? z) = true -> (x <? z) = true.
Proof.
  rewrite !FloatAxioms.ltb_spec. unfold SFltb.
  destruct (SFcompare (Prim2SF x) (Prim2SF y)) as [[]|] eqn:E1; try discriminate.
  destruct (SFcompare (Prim2SF y) (Prim2SF z)) as [[]|] eqn:E2; try discriminate.
  now rewrite (SFcompare_lt_trans _ _ _ E1 E2).
Qed.

(** [c - c] is [+0.0] for a finite [c] and [nan] for an infinite or missing
    one. *)
Lemma sub_diag c : c - c = 0 \/ c - c = nan.
Proof.
  assert (H : Prim2SF (c - c) = S754_zero false \/ Prim2SF (c - c) = S754_nan).
  { rewrite FloatAxioms.sub_spec. destruct (Prim2SF c) as [s|s| |s m e]; cbn.
    - left. now destruct s.
    - right. now destruct s.
    - now right.
    - left. unfold SF64sub, SFsub. now rewrite Z.sub_diag. }
  destruct H as [H|H]; [left|right]; apply Prim2SF_inj; rewrite H; reflexivity.
Qed.

Lemma sub_nan_r c : c - nan = nan.
Proof.
  apply Prim2SF_inj. rewrite FloatAxioms.sub_spec.
  change (Prim2SF nan) with S754_nan. now destruct (Prim2SF c).
Qed.

(** ** Series lemmas *)

Lemma buffer_step (w : nat) (pre : list float) x :
  (0 < w)%nat ->
  ((if Nat.ltb (length (drop (length pre - w) pre)) w
    then drop (length pre - w) pre
    else tail (drop (length pre - w) pre)) ++ [x])%list
  = drop (length (pre ++ [x])%list - w) (pre ++ [x])%list.
Proof.
  intros Hw. rewrite length_drop, length_app. cbn [length].
  destruct (Nat.ltb_spec (length pre - (length pre - w)) w) as [Hlt|Hge].
  - replace (length pre - w)%nat with 0%nat by lia.
    replace (length pre + 1 - w)%nat with 0%nat by lia.
    reflexivity.
  - replace (length pre + 1 - w)%nat with (S (length pre - w)) by lia.
    rewrite drop_app_le by lia.
    f_equal. generalize (length pre - w)%nat. clear.
    induction pre as [|a pre IH]; intros [|n]; cbn; trivial.
Qed.

Lemma rolling_from_lookup w agg (pre xs : list float) i :
  (0 < w)%nat -> (i < length xs)%nat ->
  rolling_from w agg (drop (length pre - w) pre) xs !! i
  = Some (let buf := drop (length pre + S i - w) (pre ++ take (S i) xs)%list in
          if Nat.ltb (length buf) w || existsb isna buf then nan else agg buf).
Proof.
  intros Hw. revert pre i. induction xs as [|x xs IH]; intros pre i Hi; cbn [length] in Hi.
  - lia.
  - cbn [rolling_from]. rewrite (buffer_step w pre x Hw).
    destruct i as [|i].
    + cbn [lookup list_lookup take]. rewrite length_app. cbn [length].
      reflexivity.
    + cbn [lookup list_lookup]. change (rolling_from w agg ?b xs !! i) with
        (rolling_from w agg b xs !! i).
      rewrite (IH (pre ++ [x])%list i) by lia.
      rewrite length_app. cbn [length take].
      rewrite <- app_assoc. cbn [app].
      replace (length pre + 1 + S i)%nat with (length pre + S (S i))%nat by lia.
      reflexivity.
Qed.

Lemma length_window w i (xs : list float) :
  (i < length xs)%nat -> length (window w i xs) = Nat.min w (S i).
Proof.
  intros Hi. unfold window. rewrite length_drop, length_take. lia.
Qed.

Lemma rolling_lookup w agg (xs : list float) i :
  (0 < w)%nat -> (i < length xs)%nat ->
  rolling w agg xs !! i
  = Some (if Nat.ltb (S i) w || existsb isna (window w i xs) then nan
          else agg (window w i xs)).
Proof.
  intros Hw Hi. unfold rolling.
  change (@nil float) with (drop (length (@nil float) - w) (@nil float)) at 1.
  rewrite rolling_from_lookup by assumption. cbn [length app Nat.add].
  fold (window w i xs). cbv zeta. rewrite length_window by assumption.
  destruct (Nat.ltb_spec (S i) w), (Nat.ltb_spec (Nat.min w (S i)) w); try lia; reflexivity.
Qed.

Lemma length_rolling_from w agg buf (xs : list float) :
  length (rolling_from w agg buf xs) = length xs.
Proof.
  revert buf. induction xs as [|x xs IH]; intros buf; cbn; [reflexivity|].
  now rewrite IH.
Qed.

Lemma length_rolling w agg (xs : list float) : length (rolling w agg xs) = length xs.
Proof. apply length_rolling_from. Qed.

Lemma window_lookup w i (xs : list float) j :
  (w <= S i)%nat -> (i < length xs)%nat -> (j < w)%nat ->
  window w i xs !! j = xs !! (S i - w + j)%nat.
Proof.
  intros Hw Hi Hj. unfold window. rewrite lookup_drop, lookup_take_lt by lia.
  reflexivity.
Qed.

(** ** What the functions leave in the table, column by column *)

Lemma result_column_indicators h df high low close volume key t :
  h !! df = Some t ->
  series t "High" = Some high -> series t "Low" = Some low ->
  series t "Close" = Some close -> series t "Volume" = Some volume ->
  result_column (calculate_indicators df) h key
  = indicator_columns high low close volume (columns t) !! key.
Proof.
  intros Ht Hhi Hlo Hcl Hvo. unfold result_column.
  rewrite (calculate_indicators_run df h t high low close volume) by assumption.
  now rewrite lookup_insert_eq.
Qed.

Lemma result_column_score h df x key t :
  h !! df = Some t ->
  series t "EMA9" = Some (i_ema9 x) -> series t "EMA21" = Some (i_ema21 x) ->
  series t "SMA50" = Some (i_sma50 x) -> series t "RSI" = Some (i_rsi x) ->
  series t "Stoch_K" = Some (i_stoch_k x) -> series t "Stoch_D" = Some (i_stoch_d x) ->
  series t "Close" = Some (i_close x) -> series t "VWAP" = Some (i_vwap x) ->
  series t "ATR_Percentile" = Some (i_atr_percentile x) ->
  series t "Vol_Ratio" = Some (i_vol_ratio x) ->
  result_column (calculate_timing_score df) h key = score_columns x (columns t) !! key.
Proof.
  intros. unfold result_column.
  rewrite (calculate_timing_score_run df h t x) by assumption.
  now rewrite lookup_insert_eq.
Qed.

Lemma result_column_pipeline h df high low close volume key t :
  h !! df = Some t ->
  series t "High" = Some high -> series t "Low" = Some low ->
  series t "Close" = Some close -> series t "Volume" = Some volume ->
  result_column (pipeline df) h key
  = score_columns (computed_indicators high low close volume)
      (indicator_columns high low close volume (columns t)) !! key.
Proof.
  intros Ht Hhi Hlo Hcl Hvo. unfold result_column.
  rewrite (pipeline_run df h t high low close volume) by assumption.
  now rewrite lookup_insert_eq.
Qed.

(** ** The score of one bar *)

Lemma Timing_Score_lookup a b c d e f i :
  Timing_Score a b c d e f !! i
  = (xa ← a !! i; xb ← b !! i; xc ← c !! i; xd ← d !! i; xe ← e !! i; xf ← f !! i;
     Some (score xa xb xc xd xe xf)).
Proof.
  unfold Timing_Score, s_add. rewrite list_lookup_fmap, !lookup_zip_with, !list_lookup_fmap.
  destruct (a !! i), (b !! i), (c !! i), (d !! i), (e !! i), (f !! i); reflexivity.
Qed.

Lemma np_where_1_0_bits cond : Forall is_bit (np_where_1_0 cond).
Proof.
  unfold np_where_1_0. apply Forall_fmap, Forall_forall. intros [] _; [now right|now left].
Qed.

Lemma bit_lookup zs i (xa : float) :
  Forall is_bit zs -> map float_of_int64 zs !! i = Some xa -> xa = 0 \/ xa = 1.
Proof.
  intros Hz. change (map float_of_int64 zs) with (float_of_int64 <$> zs).
  rewrite list_lookup_fmap. destruct (zs !! i) as [z|] eqn:E; [|discriminate].
  intros [= <-]. destruct (proj1 (Forall_lookup _ _) Hz i z E) as [-> | ->]; auto.
Qed.

Lemma score_of_bits a b c d e f :
  (a = 0 \/ a = 1) -> (b = 0 \/ b = 1) -> (c = 0 \/ c = 1) ->
  (d = 0 \/ d = 1) -> (e = 0 \/ e = 1) -> (f = 0 \/ f = 1) ->
  in_0_100 (score a b c d e f).
Proof.
  intros [-> | ->] [-> | ->] [-> | ->] [-> | ->] [-> | ->] [-> | ->];
    vm_compute; auto.
Qed.

Lemma has_indicators_table df dates x :
  has_indicators (store_of df (indicator_table dates x)) df x.
Proof.
  exists (indicator_table dates x). unfold store_of.
  rewrite lookup_singleton_eq. repeat split; reflexivity.
Qed.

Ltac score_column H :=
  destruct H as (t & Ht & H1 & H2 & H3 & H4 & H5 & H6 & H7 & H8 & H9 & H10);
  rewrite (result_column_score _ _ _ _ t Ht H1 H2 H3 H4 H5 H6 H7 H8 H9 H10);
  unfold score_columns;
  repeat (rewrite lookup_insert_ne by discriminate);
  rewrite lookup_insert_eq.

(** ** C1: the composite score *)

(** C1, as amended.  On a table holding the ten indicator series,
    [calculate_timing_score] returns and leaves the six signal columns and the
    [Timing_Score] column; at every bar the score is the binary64 value of
    [(EMA*0.3 + RSI*0.2 + Stoch*0.2 + VWAP*0.1 + IVP*0.1 + PC*0.1) * 100],
    the products added left to right.  A bar with all six signals 0 scores
    exactly [0.0]; a bar with all six signals 1 scores [99.99999999999999],
    the largest binary64 value below [100.0]. *)
Theorem timing_score_weighted_sum h df x :
  has_indicators h df x ->
  exists es rs ks vs ps cs scores,
    result_column (calculate_timing_score df) h "EMA_Signal" = Some (IntCol es) /\
    result_column (calculate_timing_score df) h "RSI_Signal" = Some (IntCol rs) /\
    result_column (calculate_timing_score df) h "Stoch_Signal" = Some (IntCol ks) /\
    result_column (calculate_timing_score df) h "VWAP_Signal" = Some (IntCol vs) /\
    result_column (calculate_timing_score df) h "IVP_Signal" = Some (IntCol ps) /\
    result_column (calculate_timing_score df) h "PC_Signal" = Some (IntCol cs) /\
    result_column (calculate_timing_score df) h "Timing_Score" = Some (FloatCol scores) /\
    (forall i : nat,
       scores !! i
       = (e ← es !! i; r ← rs !! i; k ← ks !! i; v ← vs !! i; p ← ps !! i; c ← cs !! i;
          Some (score (float_of_int64 e) (float_of_int64 r) (float_of_int64 k)
                      (float_of_int64 v) (float_of_int64 p) (float_of_int64 c)))) /\
    score (float_of_int64 0) (float_of_int64 0) (float_of_int64 0)
          (float_of_int64 0) (float_of_int64 0) (float_of_int64 0) = 0 /\
    score (float_of_int64 1) (float_of_int64 1) (float_of_int64 1)
          (float_of_int64 1) (float_of_int64 1) (float_of_int64 1) = next_down 100.
Proof.
  intros H.
  exists (EMA_Signal (i_ema9 x) (i_ema21 x) (i_sma50 x)), (RSI_Signal (i_rsi x)),
    (Stoch_Signal (i_stoch_k x) (i_stoch_d x)), (VWAP_Signal (i_close x) (i_vwap x)),
    (IVP_Signal (i_atr_percentile x)), (PC_Signal (i_vol_ratio x)), (signal_scores x).
  repeat split; try (pose proof H as H'; score_column H'; reflexivity).
  intros i. unfold signal_scores. rewrite Timing_Score_lookup.
  change (map float_of_int64 ?l) with (float_of_int64 <$> l).
  rewrite !list_lookup_fmap.
  destruct (EMA_Signal _ _ _ !! i), (RSI_Signal _ !! i), (Stoch_Signal _ _ !! i),
    (VWAP_Signal _ _ !! i), (IVP_Signal _ !! i), (PC_Signal _ !! i); reflexivity.
Qed.

Lemma timing_score_weighted_sum_witness :
  has_indicators (store_of 1%positive (indicator_table [0%Z] all_true_bar)) 1%positive all_true_bar /\
  exists es rs ks vs ps cs scores,
    result_column (calculate_timing_score 1%positive)
      (store_of 1%positive (indicator_table [0%Z] all_true_bar)) "EMA_Signal" = Some (IntCol es) /\
    result_column (calculate_timing_score 1%positive)
      (store_of 1%positive (indicator_table [0%Z] all_true_bar)) "RSI_Signal" = Some (IntCol rs) /\
    result_column (calculate_timing_score 1%positive)
      (store_of 1%positive (indicator_table [0%Z] all_true_bar)) "Stoch_Signal" = Some (IntCol ks) /\
    result_column (calculate_timing_score 1%positive)
      (store_of 1%positive (indicator_table [0%Z] all_true_bar)) "VWAP_Signal" = Some (IntCol vs) /\
    result_column (calculate_timing_score 1%positive)
      (store_of 1%positive (indicator_table [0%Z] all_true_bar)) "IVP_Signal" = Some (IntCol ps) /\
    result_column (calculate_timing_score 1%positive)
      (store_of 1%positive (indicator_table [0%Z] all_true_bar)) "PC_Signal" = Some (IntCol cs) /\
    result_column (calculate_timing_score 1%positive)
      (store_of 1%positive (indicator_table [0%Z] all_true_bar)) "Timing_Score" = Some (FloatCol scores) /\
    (forall i : nat,
       scores !! i
       = (e ← es !! i; r ← rs !! i; k ← ks !! i; v ← vs !! i; p ← ps !! i; c ← cs !! i;
          Some (score (float_of_int64 e) (float_of_int64 r) (float_of_int64 k)
                      (float_of_int64 v) (float_of_int64 p) (float_of_int64 c)))) /\
    score (float_of_int64 0) (float_of_int64 0) (float_of_int64 0)
          (float_of_int64 0) (float_of_int64 0) (float_of_int64 0) = 0 /\
    score (float_of_int64 1) (float_of_int64 1) (float_of_int64 1)
          (float_of_int64 1) (float_of_int64 1) (float_of_int64 1) = next_down 100.
Proof.
  split.
  - apply has_indicators_table.
  - apply (timing_score_weighted_sum _ 1%positive all_true_bar).
    apply has_indicators_table.
Defined.

(** C1 as stated fails: on a bar where all six conditions hold the six signal
    columns are 1 and the [Timing_Score] column is not [100.0]: it is strictly
    below. *)
Lemma all_true_bar_scores_below_100 :
  let h := store_of 1%positive (indicator_table [0%Z] all_true_bar) in
  result_column (calculate_timing_score 1%positive) h "EMA_Signal" = Some (IntCol [1%Z]) /\
  result_column (calculate_timing_score 1%positive) h "RSI_Signal" = Some (IntCol [1%Z]) /\
  result_column (calculate_timing_score 1%positive) h "Stoch_Signal" = Some (IntCol [1%Z]) /\
  result_column (calculate_timing_score 1%positive) h "VWAP_Signal" = Some (IntCol [1%Z]) /\
  result_column (calculate_timing_score 1%positive) h "IVP_Signal" = Some (IntCol [1%Z]) /\
  result_column (calculate_timing_score 1%positive) h "PC_Signal" = Some (IntCol [1%Z]) /\
  result_column (calculate_timing_score 1%positive) h "Timing_Score" <> Some (FloatCol [100]) /\
  exists s, result_column (calculate_timing_score 1%positive) h "Timing_Score"
            = Some (FloatCol [s]) /\ (s <? 100) = true.
Proof.
  cbv zeta. repeat split; try (vm_compute; reflexivity).
  - intros H.
    apply (f_equal (fun c => match c with
                             | Some (FloatCol [s]) => s <? 100
                             | _ => false
                             end)) in H.
    vm_compute in H. discriminate.
  - exists (next_down 100). split; vm_compute; reflexivity.
Qed.

(** ** C9: signals are bits, scores lie in [0, 100] *)

Lemma signal_scores_in_range x : Forall in_0_100 (signal_scores x).
Proof.
  apply Forall_lookup. intros i s. unfold signal_scores.
  rewrite Timing_Score_lookup. intros Hs.
  destruct (map float_of_int64 (EMA_Signal _ _ _) !! i) as [a|] eqn:Ea; [|discriminate].
  destruct (map float_of_int64 (RSI_Signal _) !! i) as [b|] eqn:Eb; [|discriminate].
  destruct (map float_of_int64 (Stoch_Signal _ _) !! i) as [c|] eqn:Ec; [|discriminate].
  destruct (map float_of_int64 (VWAP_Signal _ _) !! i) as [d|] eqn:Ed; [|discriminate].
  destruct (map float_of_int64 (IVP_Signal _) !! i) as [e|] eqn:Ee; [|discriminate].
  destruct (map float_of_int64 (PC_Signal _) !! i) as [f|] eqn:Ef; [|discriminate].
  cbn in Hs. injection Hs as <-.
  apply score_of_bits; eapply bit_lookup; try eassumption; apply np_where_1_0_bits.
Qed.

(** C9.  On a table holding the ten indicator series, whatever their values
    (missing ones included), [calculate_timing_score] returns; each of the six
    signal columns it leaves holds only 0 and 1, and every value of the
    [Timing_Score] column is present and lies between 0 and 100. *)
Theorem signals_are_bits_and_score_in_0_100 h df x :
  has_indicators h df x ->
  (forall key, key ∈ signal_names ->
     exists zs, result_column (calculate_timing_score df) h key = Some (IntCol zs) /\
                Forall is_bit zs) /\
  exists scores,
    result_column (calculate_timing_score df) h "Timing_Score" = Some (FloatCol scores) /\
    Forall in_0_100 scores.
Proof.
  intros H. split.
  - intros key Hkey. unfold signal_names in Hkey.
    repeat (apply elem_of_cons in Hkey as [-> | Hkey]);
      [ | | | | | | now apply elem_of_nil in Hkey ];
      eexists; (split; [score_column H; reflexivity | apply np_where_1_0_bits]).
  - exists (signal_scores x). split.
    + score_column H. reflexivity.
    + apply signal_scores_in_range.
Qed.

Lemma signals_are_bits_and_score_in_0_100_witness :
  has_indicators (store_of 1%positive (indicator_table [0%Z] all_missing_bar))
    1%positive all_missing_bar /\
  ((forall key, key ∈ signal_names ->
     exists zs,
       result_column (calculate_timing_score 1%positive)
         (store_of 1%positive (indicator_table [0%Z] all_missing_bar)) key = Some (IntCol zs) /\
       Forall is_bit zs) /\
   exists scores,
     result_column (calculate_timing_score 1%positive)
       (store_of 1%positive (indicator_table [0%Z] all_missing_bar)) "Timing_Score"
     = Some (FloatCol scores) /\
     Forall in_0_100 scores).
Proof.
  split.
  - apply has_indicators_table.
  - apply (signals_are_bits_and_score_in_0_100 _ 1%positive all_missing_bar).
    apply has_indicators_table.
Defined.

(** The same for the whole pipeline, from the four source series. *)
Corollary pipeline_scores_in_0_100 h df high low close volume :
  holds h df high low close volume ->
  exists scores,
    result_column (pipeline df) h "Timing_Score" = Some (FloatCol scores) /\
    Forall in_0_100 scores.
Proof.
  intros (t & Ht & Hhi & Hlo & Hcl & Hvo).
  exists (signal_scores (computed_indicators high low close volume)). split.
  - rewrite (result_column_pipeline h df high low close volume _ t) by assumption.
    unfold score_columns.
    repeat first [ rewrite lookup_insert_eq | rewrite lookup_insert_ne by discriminate ].
    reflexivity.
  - apply signal_scores_in_range.
Qed.

(** ** C3: the trade signal *)

(** C3.  The classification is a three-way function of the percentile:
    ["Buy Call"] exactly when [percentile >= 80], ["Hold"] exactly when
    [50 <= percentile < 80], ["Avoid"] exactly when [percentile < 50] (or the
    percentile is missing); 80.0 classifies as ["Buy Call"], 79.9 as ["Hold"],
    49.9 as ["Avoid"]; and the display loop applies it to the [Percentile] of
    the most recent bar. *)
Theorem signal_three_way (p : float) :
  (signal p = "Buy Call" <-> geb p 80 = true) /\
  (signal p = "Hold" <-> geb p 50 = true /\ (p <? 80) = true) /\
  (signal p = "Avoid" <-> (p <? 50) = true \/ isna p = true) /\
  signal 80 = "Buy Call" /\ signal 79.9 = "Hold" /\ signal 49.9 = "Avoid" /\
  (forall (h : gmap positive DataFrame) (df : positive) t ps,
     h !! df = Some t -> index t <> [] ->
     series t "Percentile" = Some (ps ++ [p])%list ->
     is_Some (series t "Timing_Score") ->
     latest_signal df h = (Returns (signal p), h)).
Proof.
  assert (H5080 : PrimFloat.ltb 50%float 80%float = true) by reflexivity.
  assert (Hbuy : signal p = "Buy Call" <-> geb p 80 = true).
  { unfold signal, geb. split.
    - destruct (80 <=? p); [reflexivity|]. destruct (50 <=? p); discriminate.
    - now intros ->. }
  assert (Hhold : signal p = "Hold" <-> geb p 50 = true /\ (p <? 80) = true).
  { unfold signal, geb. split.
    - destruct (80 <=? p) eqn:E80; [discriminate|].
      destruct (50 <=? p) eqn:E50; [|discriminate].
      intros _. split; [reflexivity|]. apply leb_false_ltb; trivial.
      apply (leb_true_notna 50 p E50).
    - intros [H50 H80]. rewrite (ltb_leb_false _ _ H80). now rewrite H50. }
  assert (Havoid : signal p = "Avoid" <-> (p <? 50) = true \/ isna p = true).
  { unfold signal, geb. split.
    - destruct (80 <=? p) eqn:E80; [discriminate|].
      destruct (50 <=? p) eqn:E50; [discriminate|].
      intros _. destruct (isna p) eqn:Ep; [now right|left].
      now apply leb_false_ltb.
    - intros [H50 | Hna].
      + rewrite (ltb_leb_false p 80 (ltb_trans p 50 80 H50 H5080)).
        now rewrite (ltb_leb_false _ _ H50).
      + now rewrite !leb_isna_r. }
  split; [exact Hbuy|]. split; [exact Hhold|]. split; [exact Havoid|].
  split; [reflexivity|]. split; [reflexivity|]. split; [reflexivity|].
  intros h df t ps Ht Hbars Hp [ss Hs]. unfold latest_signal.
  erewrite bind_returns by (unfold len; now rewrite Ht).
  destruct (index t) as [|d ds] eqn:Ei; [congruence|]. cbn [length Nat.eqb].
  rewrite <- (insert_id h df t Ht).
  rewrite (bind_returns _ _ _ _ _ (getitem_insert df "Percentile" t h _ Hp)).
  rewrite (bind_returns _ _ _ _ _ (getitem_insert df "Timing_Score" t h _ Hs)).
  rewrite last_snoc. reflexivity.
Qed.

(** ** Frame: what the statements leave alone *)

Lemma unchanged_refl written df h : unchanged written df h h.
Proof. repeat split. Qed.

Lemma unchanged_trans written df h1 h2 h3 :
  unchanged written df h1 h2 -> unchanged written df h2 h3 -> unchanged written df h1 h3.
Proof.
  intros (Ha & Hb & Hc) (Ha' & Hb' & Hc'). repeat split.
  - intros r Hr. now rewrite Ha', Ha.
  - now rewrite Hb', Hb.
  - intros key Hkey. now rewrite Hc', Hc.
Qed.

Lemma preserves_ret {A} written df (a : A) : preserves written df (mret a).
Proof. intros h. apply unchanged_refl. Qed.

Lemma preserves_raise {A} written df e : preserves written df (@raise A e).
Proof. intros h. apply unchanged_refl. Qed.

Lemma preserves_getitem written df key : preserves written df (getitem df key).
Proof.
  intros h. unfold getitem.
  destruct (h !! df) as [t|]; [destruct (columns t !! key)|]; apply unchanged_refl.
Qed.

Lemma preserves_setitem written df key v :
  key ∈ written -> preserves written df (setitem df key v).
Proof.
  intros Hkey h. unfold setitem.
  destruct (h !! df) as [t|] eqn:Ht; [|apply unchanged_refl].
  cbn. repeat split.
  - intros r Hr. now rewrite lookup_insert_ne.
  - now rewrite lookup_insert_eq, Ht.
  - intros key' Hkey'. rewrite lookup_insert_eq, Ht. cbn.
    rewrite lookup_insert_ne; [reflexivity|]. intros ->. contradiction.
Qed.

Lemma preserves_bind {A B} written df (m : Py A) (f : A -> Py B) :
  preserves written df m -> (forall a, preserves written df (f a)) ->
  preserves written df (m ≫= f).
Proof.
  intros Hm Hf h. specialize (Hm h). unfold mbind, Py_bind.
  destruct (m h) as [[a|e] h'] eqn:E; cbn in Hm |- *; [|exact Hm].
  eapply unchanged_trans; [exact Hm|apply Hf].
Qed.

Lemma returns_only_ret {A} (P : A -> Prop) a : P a -> returns_only P (mret a).
Proof. intros Ha h a' h' [= <- _]. exact Ha. Qed.

Lemma returns_only_bind {A B} (P : B -> Prop) (m : Py A) (f : A -> Py B) :
  (forall a, returns_only P (f a)) -> returns_only P (m ≫= f).
Proof.
  intros Hf h b h'. unfold mbind, Py_bind.
  destruct (m h) as [[a|e] h1]; [apply Hf|discriminate].
Qed.

Ltac frame_steps :=
  repeat first
    [ apply preserves_ret
    | apply preserves_bind; [| intros ? ]
    | apply preserves_getitem
    | apply preserves_setitem; set_solver ].

Lemma calculate_indicators_preserves df :
  preserves indicator_names df (calculate_indicators df).
Proof. unfold calculate_indicators, indicator_names. frame_steps. Qed.

Lemma calculate_timing_score_preserves df :
  preserves score_names df (calculate_timing_score df).
Proof. unfold calculate_timing_score, score_names, signal_names. frame_steps. Qed.

Lemma calculate_indicators_returns_df df :
  returns_only (fun r => r = df) (calculate_indicators df).
Proof.
  unfold calculate_indicators.
  repeat (apply returns_only_bind; intros ?). now apply returns_only_ret.
Qed.

Lemma calculate_timing_score_returns_df df :
  returns_only (fun r => r = df) (calculate_timing_score df).
Proof.
  unfold calculate_timing_score.
  repeat (apply returns_only_bind; intros ?). now apply returns_only_ret.
Qed.

Lemma getitem_insert_missing df key (t : DataFrame) (h : gmap positive DataFrame) :
  series t key = None ->
  getitem df key (<[df := t]> h) = (Raises (KeyError key), <[df := t]> h).
Proof.
  unfold series, getitem. intros Hk. rewrite lookup_insert_eq.
  destruct (columns t !! key) as [c|]; [discriminate|reflexivity].
Qed.

Lemma getitem_unbound df key (h : gmap positive DataFrame) :
  h !! df = None -> getitem df key h = (Raises NameError, h).
Proof. unfold getitem. now intros ->. Qed.

Ltac py_fail :=
  erewrite bind_raises; [| apply getitem_insert_missing; series_lookup ].

(** If [calculate_indicators] returns, the table was there with the four
    series it reads. *)
Lemma calculate_indicators_returns_inv df (h : gmap positive DataFrame) r h' :
  calculate_indicators df h = (Returns r, h') ->
  exists high low close volume, holds h df high low close volume.
Proof.
  intros Hrun. destruct (h !! df) as [t|] eqn:Ht.
  - destruct (series t "Close") as [close|] eqn:Hcl,
             (series t "Low") as [low|] eqn:Hlo,
             (series t "High") as [high|] eqn:Hhi,
             (series t "Volume") as [volume|] eqn:Hvo;
      try (exists high, low, close, volume, t; repeat split; assumption);
      exfalso; revert Hrun;
      rewrite <- (insert_id h df t Ht) at 1;
      unfold calculate_indicators; repeat py_step; py_fail; discriminate.
  - exfalso. revert Hrun. unfold calculate_indicators.
    erewrite bind_raises by (now apply getitem_unbound). discriminate.
Qed.

Lemma calculate_timing_score_returns_inv df (h : gmap positive DataFrame) r h' :
  calculate_timing_score df h = (Returns r, h') ->
  exists x, has_indicators h df x.
Proof.
  intros Hrun. destruct (h !! df) as [t|] eqn:Ht.
  - destruct (series t "EMA9") as [x1|] eqn:H1; cycle 1.
    { exfalso; revert Hrun; rewrite <- (insert_id h df t Ht) at 1;
      unfold calculate_timing_score; repeat py_step; py_fail; discriminate. }
    destruct (series t "EMA21") as [x2|] eqn:H2; cycle 1.
    { exfalso; revert Hrun; rewrite <- (insert_id h df t Ht) at 1;
      unfold calculate_timing_score; repeat py_step; py_fail; discriminate. }
    destruct (series t "SMA50") as [x3|] eqn:H3; cycle 1.
    { exfalso; revert Hrun; rewrite <- (insert_id h df t Ht) at 1;
      unfold calculate_timing_score; repeat py_step; py_fail; discriminate. }
    destruct (series t "RSI") as [x4|] eqn:H4; cycle 1.
    { exfalso; revert Hrun; rewrite <- (insert_id h df t Ht) at 1;
      unfold calculate_timing_score; repeat py_step; py_fail; discriminate. }
    destruct (series t "Stoch_K") as [x5|] eqn:H5; cycle 1.
    { exfalso; revert Hrun; rewrite <- (insert_id h df t Ht) at 1;
      unfold calculate_timing_score; repeat py_step; py_fail; discriminate. }
    destruct (series t "Stoch_D") as [x6|] eqn:H6; cycle 1.
    { exfalso; revert Hrun; rewrite <- (insert_id h df t Ht) at 1;
      unfold calculate_timing_score; repeat py_step; py_fail; discriminate. }
    destruct (series t "Close") as [x7|] eqn:H7; cycle 1.
    { exfalso; revert Hrun; rewrite <- (insert_id h df t Ht) at 1;
      unfold calculate_timing_score; repeat py_step; py_fail; discriminate. }
    destruct (series t "VWAP") as [x8|] eqn:H8; cycle 1.
    { exfalso; revert Hrun; rewrite <- (insert_id h df t Ht) at 1;
      unfold calculate_timing_score; repeat py_step; py_fail; discriminate. }
    destruct (series t "ATR_Percentile") as [x9|] eqn:H9; cycle 1.
    { exfalso; revert Hrun; rewrite <- (insert_id h df t Ht) at 1;
      unfold calculate_timing_score; repeat py_step; py_fail; discriminate. }
    destruct (series t "Vol_Ratio") as [x10|] eqn:H10; cycle 1.
    { exfalso; revert Hrun; rewrite <- (insert_id h df t Ht) at 1;
      unfold calculate_timing_score; repeat py_step; py_fail; discriminate. }
    exists (mkIndicators x1 x2 x3 x4 x5 x6 x7 x8 x9 x10), t. repeat split; assumption.
  - exfalso. revert Hrun. unfold calculate_timing_score.
    erewrite bind_raises by (now apply getitem_unbound). discriminate.
Qed.

(** ** C10: the functions update the table in place *)

Lemma indicator_columns_present high low close volume cols key :
  key ∈ indicator_names -> is_Some (indicator_columns high low close volume cols !! key).
Proof.
  unfold indicator_names, indicator_columns. intros Hkey.
  repeat (apply elem_of_cons in Hkey as [-> | Hkey]);
    [ .. | now apply elem_of_nil in Hkey ];
    repeat (rewrite lookup_insert_ne by discriminate);
    rewrite lookup_insert_eq; eauto.
Qed.

Lemma score_columns_present x cols key :
  key ∈ score_names -> is_Some (score_columns x cols !! key).
Proof.
  unfold score_names, signal_names, score_columns. cbn [app]. intros Hkey.
  repeat (apply elem_of_cons in Hkey as [-> | Hkey]);
    [ .. | now apply elem_of_nil in Hkey ];
    repeat (rewrite lookup_insert_ne by discriminate);
    rewrite lookup_insert_eq; eauto.
Qed.

Lemma input_names_not_written key :
  key ∈ input_names -> (key ∉ indicator_names) /\ (key ∉ score_names).
Proof.
  unfold input_names, indicator_names, score_names, signal_names. cbn [app]. intros Hkey.
  repeat (apply elem_of_cons in Hkey as [-> | Hkey]);
    [ .. | now apply elem_of_nil in Hkey ];
    split; intros Hin;
    repeat (apply elem_of_cons in Hin as [Hin | Hin]; [discriminate|]);
    now apply elem_of_nil in Hin.
Qed.

(** C10.  [calculate_indicators] and [calculate_timing_score] work on the
    table they are given: they add their derived columns to it and return the
    same reference; the date index and the [Open], [High], [Low], [Close] and
    [Volume] columns keep their values at every bar. *)
Theorem functions_update_table_in_place :
  in_place indicator_names calculate_indicators /\
  in_place score_names calculate_timing_score.
Proof.
  split; intros df h.
  - split; [apply calculate_indicators_preserves|]. split.
    + intros key Hkey.
      apply (calculate_indicators_preserves df h), (input_names_not_written key Hkey).
    + intros r Hr. destruct (calculate_indicators df h) as [o h'] eqn:E.
      cbn in Hr. subst o.
      pose proof (calculate_indicators_returns_df df h r h' E) as ->.
      split; [reflexivity|].
      destruct (calculate_indicators_returns_inv df h df h' E)
        as (high & low & close & volume & t & Ht & Hhi & Hlo & Hcl & Hvo).
      rewrite (calculate_indicators_run df h t high low close volume) in E by assumption.
      injection E as <-. cbn. eexists. split; [apply lookup_insert_eq|].
      intros key Hkey. cbn. now apply indicator_columns_present.
  - split; [apply calculate_timing_score_preserves|]. split.
    + intros key Hkey.
      apply (calculate_timing_score_preserves df h), (input_names_not_written key Hkey).
    + intros r Hr. destruct (calculate_timing_score df h) as [o h'] eqn:E.
      cbn in Hr. subst o.
      pose proof (calculate_timing_score_returns_df df h r h' E) as ->.
      split; [reflexivity|].
      destruct (calculate_timing_score_returns_inv df h df h' E)
        as (x & t & Ht & H1 & H2 & H3 & H4 & H5 & H6 & H7 & H8 & H9 & H10).
      rewrite (calculate_timing_score_run df h t x) in E by assumption.
      injection E as <-. cbn. eexists. split; [apply lookup_insert_eq|].
      intros key Hkey. cbn. now apply score_columns_present.
Qed.

(** ** C8: the pipeline is a function of the four series it reads *)

Lemma holds_history df dates open high low close volume :
  holds (store_of df (history dates open high low close volume)) df high low close volume.
Proof.
  eexists. unfold store_of. rewrite lookup_singleton_eq. repeat split; reflexivity.
Qed.

Lemma derived_columns_independent x high low close volume cols cols' key :
  key ∈ derived_names ->
  score_columns x (indicator_columns high low close volume cols) !! key
  = score_columns x (indicator_columns high low close volume cols') !! key /\
  is_Some (score_columns x (indicator_columns high low close volume cols) !! key).
Proof.
  unfold derived_names, indicator_names, score_names, signal_names,
    score_columns, indicator_columns.
  cbn [app]. intros Hkey.
  repeat (apply elem_of_cons in Hkey as [-> | Hkey]);
    [ .. | now apply elem_of_nil in Hkey ];
    repeat first [ rewrite lookup_insert_eq
                 | rewrite lookup_insert_ne by discriminate ];
    (split; [reflexivity | eauto]).
Qed.

Lemma holds_after_pipeline h df high low close volume :
  holds h df high low close volume ->
  holds (pipeline df h).2 df high low close volume.
Proof.
  intros (t & Ht & Hhi & Hlo & Hcl & Hvo).
  rewrite (pipeline_run df h t high low close volume) by assumption. cbn.
  eexists. split; [apply lookup_insert_eq|].
  repeat split; series_lookup.
Qed.

(** C8.  Run on two tables that hold the same [High], [Low], [Close] and
    [Volume] series, [calculate_indicators] followed by
    [calculate_timing_score] returns on both and leaves the same values,
    float for float, in every derived, signal and score column; running it
    again on a table it has already processed leaves those columns as they
    are. *)
Theorem pipeline_deterministic h1 h2 df1 df2 high low close volume :
  holds h1 df1 high low close volume ->
  holds h2 df2 high low close volume ->
  (pipeline df1 h1).1 = Returns df1 /\
  (pipeline df2 h2).1 = Returns df2 /\
  forall key, key ∈ derived_names ->
    is_Some (result_column (pipeline df1) h1 key) /\
    result_column (pipeline df1) h1 key = result_column (pipeline df2) h2 key /\
    result_column (pipeline df1) (pipeline df1 h1).2 key = result_column (pipeline df1) h1 key.
Proof.
  intros H1 H2.
  pose proof (holds_after_pipeline _ _ _ _ _ _ H1) as H1'.
  destruct H1 as (t1 & Ht1 & Hhi1 & Hlo1 & Hcl1 & Hvo1).
  destruct H2 as (t2 & Ht2 & Hhi2 & Hlo2 & Hcl2 & Hvo2).
  destruct H1' as (t3 & Ht3 & Hhi3 & Hlo3 & Hcl3 & Hvo3).
  split; [now rewrite (pipeline_run df1 h1 t1 high low close volume)|].
  split; [now rewrite (pipeline_run df2 h2 t2 high low close volume)|].
  intros key Hkey.
  rewrite (result_column_pipeline h1 df1 high low close volume key t1) by assumption.
  rewrite (result_column_pipeline h2 df2 high low close volume key t2) by assumption.
  rewrite (result_column_pipeline _ df1 high low close volume key t3) by assumption.
  split; [|split].
  - now apply derived_columns_independent with (cols' := ∅).
  - now apply derived_columns_independent.
  - now apply derived_columns_independent.
Qed.

Lemma pipeline_deterministic_witness :
  holds (store_of 1%positive three_bars) 1%positive highs3 lows3 closes3 volumes3 /\
  holds (store_of 2%positive three_bars) 2%positive highs3 lows3 closes3 volumes3 /\
  (pipeline 1%positive (store_of 1%positive three_bars)).1 = Returns 1%positive /\
  (pipeline 2%positive (store_of 2%positive three_bars)).1 = Returns 2%positive /\
  forall key, key ∈ derived_names ->
    is_Some (result_column (pipeline 1%positive) (store_of 1%positive three_bars) key) /\
    result_column (pipeline 1%positive) (store_of 1%positive three_bars) key
    = result_column (pipeline 2%positive) (store_of 2%positive three_bars) key /\
    result_column (pipeline 1%positive)
      (pipeline 1%positive (store_of 1%positive three_bars)).2 key
    = result_column (pipeline 1%positive) (store_of 1%positive three_bars) key.
Proof.
  split; [apply holds_history|]. split; [apply holds_history|].
  apply (pipeline_deterministic _ _ 1%positive 2%positive
           highs3 lows3 closes3 volumes3);
    apply holds_history.
Defined.

(** ** C4: VWAP is the ratio of two running sums *)



Lemma length_np_cumsum_from acc (xs : list float) :
  length (np_cumsum_from acc xs) = length xs.
Proof.
  revert acc. induction xs as [|x xs IH]; intros acc; cbn; [reflexivity|]. now rewrite IH.
Qed.

Lemma length_np_cumsum (xs : list float) : length (np_cumsum xs) = length xs.
Proof. destruct xs; cbn; [reflexivity|]. now rewrite length_np_cumsum_from. Qed.



Lemma result_series_indicators h df high low close volume key :
  holds h df high low close volume ->
  result_series (calculate_indicators df) h key
  = as_float64 <$> indicator_columns high low close volume ∅ !! key \/
  key ∉ indicator_names.
Proof.
  intros (t & Ht & Hhi & Hlo & Hcl & Hvo).
  destruct (decide (key ∈ indicator_names)) as [Hkey|Hkey]; [left|now right].
  unfold result_series.
  rewrite (result_column_indicators h df high low close volume key t) by assumption.
  f_equal. unfold indicator_names, indicator_columns in *.
  repeat (apply elem_of_cons in Hkey as [-> | Hkey]);
    [ .. | now apply elem_of_nil in Hkey ];
    repeat first [ rewrite lookup_insert_eq
                 | rewrite lookup_insert_ne by discriminate ];
    reflexivity.
Qed.

Ltac indicator_series H :=
  let H' := fresh in
  match goal with
  | |- result_series _ _ ?key = _ =>
      destruct (result_series_indicators _ _ _ _ _ _ key H) as [H'|H'];
      [ rewrite H'; reflexivity
      | exfalso; apply H'; unfold indicator_names; set_solver ]
  end.




(** ** C5: ATR is the trailing 14-bar mean of the true range *)

Lemma shift_take (xs : list float) : shift xs = take (length xs) (nan :: xs).
Proof.
  destruct xs as [|x xs]; [reflexivity|].
  unfold shift. rewrite removelast_firstn_len. reflexivity.
Qed.



Lemma length_shift (xs : list float) : length (shift xs) = length xs.
Proof. rewrite shift_take, length_take. cbn [length]. lia. Qed.







Lemma length_true_range high low close :
  length high = length close -> length low = length close ->
  length (true_range high low close) = length close.
Proof.
  intros Hh Hl. unfold true_range, rowmax3, s_sub.
  repeat first [ rewrite length_zip_with | rewrite length_map | rewrite length_shift ].
  lia.
Qed.




(** ** More binary64 facts: the order, and zero divided by zero *)




Lemma ltb_leb x y : (x <? y) = true -> (x <=? y) = true.
Proof. intros H. now rewrite leb_ltb_eqb, H. Qed.






Lemma Prim2SF_100 : Prim2SF 100 = S754_finite false 7036874417766400 (-46).
Proof. reflexivity. Qed.


Lemma mul_100_zero_or_nan x : zero_or_nan x -> zero_or_nan (100 * x).
Proof.
  unfold zero_or_nan. rewrite FloatAxioms.mul_spec, Prim2SF_100.
  intros [[s ->] | ->]; cbn; eauto.
Qed.

Lemma div_zero_or_nan n d : zero_or_nan n -> zero_or_nan d -> n / d = nan.
Proof.
  unfold zero_or_nan. intros Hn Hd. apply Prim2SF_inj.
  rewrite FloatAxioms.div_spec.
  destruct Hn as [[sn ->] | ->], Hd as [[sd ->] | ->]; reflexivity.
Qed.



(** ** Minimum and maximum of a window without missing values *)








(** ** C6: division by zero in RSI and Stoch_K *)


Lemma Stoch_K_lookup high low close i c lo hi :
  close !! i = Some c -> low_14 low !! i = Some lo -> high_14 high !! i = Some hi ->
  Stoch_K high low close !! i = Some (100 * (c - lo) / (hi - lo)).
Proof.
  intros Hc Hlo Hhi. unfold Stoch_K, s_div, s_sub.
  rewrite lookup_zip_with, list_lookup_fmap, !lookup_zip_with, Hc, Hlo, Hhi.
  reflexivity.
Qed.


(** The six conditions, bar by bar. *)

Lemma EMA_Signal_lookup e9 e21 s50 i :
  EMA_Signal e9 e21 s50 !! i
  = (a ← e9 !! i; b ← e21 !! i; c ← s50 !! i;
     Some (if gtb a b && gtb b c then 1%Z else 0%Z)).
Proof.
  unfold EMA_Signal, np_where_1_0, s_and, s_gt.
  rewrite list_lookup_fmap, !lookup_zip_with.
  destruct (e9 !! i), (e21 !! i), (s50 !! i); reflexivity.
Qed.

Lemma RSI_Signal_lookup rsi i :
  RSI_Signal rsi !! i = (r ← rsi !! i; Some (if geb r 35 && (r <=? 50) then 1%Z else 0%Z)).
Proof.
  unfold RSI_Signal, np_where_1_0, s_and.
  rewrite list_lookup_fmap, lookup_zip_with, !list_lookup_fmap.
  destruct (rsi !! i); reflexivity.
Qed.

Lemma Stoch_Signal_lookup k d i :
  Stoch_Signal k d !! i
  = (a ← k !! i; b ← d !! i; Some (if gtb a b && (a <? 20) then 1%Z else 0%Z)).
Proof.
  unfold Stoch_Signal, np_where_1_0, s_and, s_gt.
  rewrite list_lookup_fmap, !lookup_zip_with, list_lookup_fmap.
  destruct (k !! i), (d !! i); reflexivity.
Qed.

Lemma VWAP_Signal_lookup c v i :
  VWAP_Signal c v !! i = (a ← c !! i; b ← v !! i; Some (if gtb a b then 1%Z else 0%Z)).
Proof.
  unfold VWAP_Signal, np_where_1_0, s_gt.
  rewrite list_lookup_fmap, lookup_zip_with.
  destruct (c !! i), (v !! i); reflexivity.
Qed.

Lemma IVP_Signal_lookup p i :
  IVP_Signal p !! i = (a ← p !! i; Some (if geb a 20 && (a <=? 40) then 1%Z else 0%Z)).
Proof.
  unfold IVP_Signal, np_where_1_0, s_and.
  rewrite list_lookup_fmap, lookup_zip_with, !list_lookup_fmap.
  destruct (p !! i); reflexivity.
Qed.

Lemma PC_Signal_lookup v i :
  PC_Signal v !! i = (a ← v !! i; Some (if gtb a 1.2 then 1%Z else 0%Z)).
Proof.
  unfold PC_Signal, np_where_1_0. rewrite !list_lookup_fmap.
  destruct (v !! i); reflexivity.
Qed.

Lemma gtb_isna_l x y : isna x = true -> gtb x y = false.
Proof. intros H. unfold gtb. now apply ltb_isna_r. Qed.

Lemma gtb_isna_r x y : isna y = true -> gtb x y = false.
Proof. intros H. unfold gtb. now apply ltb_isna_l. Qed.

(** A comparison on a missing indicator value is false, so the signal is 0. *)
Lemma missing_indicator_signal_0 (x : indicators) (i : nat) (z : Z) :
  (missing_at (i_ema9 x) i \/ missing_at (i_ema21 x) i \/ missing_at (i_sma50 x) i ->
   EMA_Signal (i_ema9 x) (i_ema21 x) (i_sma50 x) !! i = Some z -> z = 0%Z) /\
  (missing_at (i_rsi x) i -> RSI_Signal (i_rsi x) !! i = Some z -> z = 0%Z) /\
  (missing_at (i_stoch_k x) i \/ missing_at (i_stoch_d x) i ->
   Stoch_Signal (i_stoch_k x) (i_stoch_d x) !! i = Some z -> z = 0%Z) /\
  (missing_at (i_close x) i \/ missing_at (i_vwap x) i ->
   VWAP_Signal (i_close x) (i_vwap x) !! i = Some z -> z = 0%Z) /\
  (missing_at (i_atr_percentile x) i ->
   IVP_Signal (i_atr_percentile x) !! i = Some z -> z = 0%Z) /\
  (missing_at (i_vol_ratio x) i -> PC_Signal (i_vol_ratio x) !! i = Some z -> z = 0%Z).
Proof.
  unfold missing_at. repeat split.
  - rewrite EMA_Signal_lookup.
    destruct (i_ema9 x !! i) as [p|] eqn:Ep, (i_ema21 x !! i) as [q|] eqn:Eq,
      (i_sma50 x !! i) as [r|] eqn:Er; cbn;
      intros [(a & Ha & Hna) | [(a & Ha & Hna) | (a & Ha & Hna)]];
      try discriminate; intros [= <-]; injection Ha as ->;
      unfold gtb; rewrite ?(ltb_isna_l _ _ Hna), ?(ltb_isna_r _ _ Hna), ?andb_false_r; reflexivity.
  - rewrite RSI_Signal_lookup. intros (a & Ha & Hna). rewrite Ha. cbn.
    intros [= <-]. unfold geb. now rewrite (leb_isna_r _ _ Hna).
  - rewrite Stoch_Signal_lookup.
    destruct (i_stoch_k x !! i) as [p|] eqn:Ep, (i_stoch_d x !! i) as [q|] eqn:Eq; cbn;
      intros [(a & Ha & Hna) | (a & Ha & Hna)];
      try discriminate; intros [= <-]; injection Ha as ->;
      unfold gtb; rewrite ?(ltb_isna_l _ _ Hna), ?(ltb_isna_r _ _ Hna); reflexivity.
  - rewrite VWAP_Signal_lookup.
    destruct (i_close x !! i) as [p|] eqn:Ep, (i_vwap x !! i) as [q|] eqn:Eq; cbn;
      intros [(a & Ha & Hna) | (a & Ha & Hna)];
      try discriminate; intros [= <-]; injection Ha as ->;
      unfold gtb; rewrite ?(ltb_isna_l _ _ Hna), ?(ltb_isna_r _ _ Hna); reflexivity.
  - rewrite IVP_Signal_lookup. intros (a & Ha & Hna). rewrite Ha. cbn.
    intros [= <-]. unfold geb. now rewrite (leb_isna_r _ _ Hna).
  - rewrite PC_Signal_lookup. intros (a & Ha & Hna). rewrite Ha. cbn.
    intros [= <-]. unfold gtb. now rewrite (ltb_isna_r _ _ Hna).
Qed.




(** ** C7: a constant-price series *)

Lemma rolling_replicate_cases w agg n (v : float) i x :
  (0 < w)%nat ->
  rolling w agg (replicate n v) !! i = Some x ->
  x = nan \/ x = agg (replicate w v).
Proof.
  intros Hw Hx.
  assert (Hi : (i < n)%nat).
  { apply lookup_lt_Some in Hx. now rewrite length_rolling, length_replicate in Hx. }
  rewrite rolling_lookup in Hx by (rewrite ?length_replicate; lia).
  injection Hx as <-.
  destruct (Nat.ltb_spec (S i) w) as [Hlt|Hge]; [now left|]. cbn [orb].
  destruct (existsb isna _); [now left|right].
  f_equal. unfold window.
  rewrite take_replicate, drop_replicate. f_equal. lia.
Qed.

Lemma length_diff (xs : list float) : length (diff xs) = length xs.
Proof. unfold diff. rewrite length_zip_with, length_shift. lia. Qed.

Lemma diff_replicate_cases n c i d :
  diff (replicate n c) !! i = Some d -> d = nan \/ d = 0.
Proof.
  unfold diff. rewrite lookup_zip_with.
  destruct (replicate n c !! i) as [x|] eqn:Ex; [|discriminate]. cbn.
  apply lookup_replicate in Ex as [-> Hi].
  destruct (shift (replicate n c) !! i) as [y|] eqn:Ey; [|discriminate]. cbn.
  intros [= <-].
  rewrite shift_take in Ey. apply lookup_take_Some in Ey as [Ey _].
  destruct i as [|i]; cbn in Ey.
  - injection Ey as <-. left. apply sub_nan_r.
  - apply lookup_replicate in Ey as [-> _].
    destruct (sub_diag c) as [-> | ->]; auto.
Qed.

Lemma where_never (f : float -> bool) (ds : list float) v :
  Forall (fun d => f d = false) ds ->
  where_ (map f ds) ds v = replicate (length ds) v.
Proof.
  unfold where_. induction 1 as [|d ds Hd _ IH]; cbn; [reflexivity|].
  rewrite Hd. f_equal. exact IH.
Qed.

Lemma gain_constant n c : gain (replicate n c) = rolling 7 mean (replicate n 0).
Proof.
  unfold gain, delta. rewrite where_never.
  - now rewrite length_diff, length_replicate.
  - apply Forall_lookup. intros i d Hd.
    destruct (diff_replicate_cases n c i d Hd) as [-> | ->]; reflexivity.
Qed.

Lemma loss_constant n c : loss (replicate n c) = rolling 7 mean (replicate n (- 0)).
Proof.
  unfold loss, delta. rewrite where_never.
  - rewrite length_diff, length_replicate.
    change (map opp (replicate n 0)) with (opp <$> replicate n 0).
    now rewrite fmap_replicate.
  - apply Forall_lookup. intros i d Hd.
    destruct (diff_replicate_cases n c i d Hd) as [-> | ->]; reflexivity.
Qed.

Lemma all_nan_replicate (xs : list float) :
  (forall i x, xs !! i = Some x -> x = nan) -> xs = replicate (length xs) nan.
Proof.
  induction xs as [|a xs IH]; intros H; cbn; [reflexivity|].
  f_equal.
  - exact (H 0%nat a eq_refl).
  - apply IH. intros i x Hx. exact (H (S i) x Hx).
Qed.

Lemma length_RSI close : length (RSI close) = length close.
Proof.
  unfold RSI, rs, s_div, gain, loss, where_, delta.
  repeat first [ rewrite length_map | rewrite length_zip_with | rewrite length_rolling
               | rewrite length_diff ].
  lia.
Qed.

Lemma RSI_constant n c : RSI (replicate n c) = replicate n nan.
Proof.
  rewrite <- (length_replicate n c) at 2. rewrite <- length_RSI.
  apply all_nan_replicate. intros i x.
  unfold RSI, rs, s_div. rewrite list_lookup_fmap, lookup_zip_with.
  rewrite gain_constant, loss_constant.
  destruct (rolling 7 mean (replicate n 0) !! i) as [g|] eqn:Eg; [|discriminate].
  destruct (rolling 7 mean (replicate n (- 0)) !! i) as [l|] eqn:El; [|discriminate].
  cbn. intros [= <-].
  destruct (rolling_replicate_cases 7 mean n 0 i g ltac:(lia) Eg) as [-> | ->],
    (rolling_replicate_cases 7 mean n (- 0) i l ltac:(lia) El) as [-> | ->];
    reflexivity.
Qed.

Lemma sub_nan_l c : nan - c = nan.
Proof.
  apply Prim2SF_inj. rewrite FloatAxioms.sub_spec.
  change (Prim2SF nan) with S754_nan. reflexivity.
Qed.

Lemma zero_or_nan_nan : zero_or_nan nan.
Proof. now right. Qed.

Lemma zero_or_nan_sub_diag c : zero_or_nan (c - c).
Proof. destruct (sub_diag c) as [-> | ->]; [left; now exists false|now right]. Qed.

Lemma minimum_replicate n c : minimum (replicate (S n) c) = c.
Proof.
  cbn [replicate minimum]. induction n as [|n IH]; cbn [replicate fold_left]; [reflexivity|].
  replace (fmin c c) with c; [exact IH|].
  unfold fmin. now destruct (c <? c).
Qed.

Lemma maximum_replicate n c : maximum (replicate (S n) c) = c.
Proof.
  cbn [replicate maximum]. induction n as [|n IH]; cbn [replicate fold_left]; [reflexivity|].
  replace (fmax c c) with c; [exact IH|].
  unfold fmax. now destruct (c <? c).
Qed.

Lemma length_Stoch_K high low close :
  length high = length close -> length low = length close ->
  length (Stoch_K high low close) = length close.
Proof.
  intros Hh Hl. unfold Stoch_K, s_div, s_sub, low_14, high_14.
  repeat first [ rewrite length_map | rewrite length_zip_with | rewrite length_rolling ].
  lia.
Qed.

Lemma Stoch_K_constant n c :
  Stoch_K (replicate n c) (replicate n c) (replicate n c) = replicate n nan.
Proof.
  rewrite <- (length_replicate n c) at 4.
  rewrite <- (length_Stoch_K (replicate n c) (replicate n c) (replicate n c))
    by reflexivity.
  apply all_nan_replicate. intros i x.
  unfold Stoch_K, s_div, s_sub.
  rewrite lookup_zip_with, list_lookup_fmap, !lookup_zip_with.
  destruct (replicate n c !! i) as [c'|] eqn:Ec; [|discriminate].
  apply lookup_replicate in Ec as [-> Hi].
  destruct (low_14 (replicate n c) !! i) as [lo|] eqn:Elo; [|discriminate].
  destruct (high_14 (replicate n c) !! i) as [hi|] eqn:Ehi; [|discriminate].
  cbn. intros [= <-].
  apply div_zero_or_nan.
  - apply mul_100_zero_or_nan.
    destruct (rolling_replicate_cases 14 minimum n c i lo ltac:(lia) Elo) as [-> | ->].
    + rewrite sub_nan_r. apply zero_or_nan_nan.
    + rewrite (minimum_replicate 13 c). apply zero_or_nan_sub_diag.
  - destruct (rolling_replicate_cases 14 minimum n c i lo ltac:(lia) Elo) as [-> | ->],
      (rolling_replicate_cases 14 maximum n c i hi ltac:(lia) Ehi) as [-> | ->];
      rewrite ?(minimum_replicate 13 c), ?(maximum_replicate 13 c),
        ?sub_nan_r, ?sub_nan_l;
      try apply zero_or_nan_nan; apply zero_or_nan_sub_diag.
Qed.

Lemma Stoch_D_all_missing n : Stoch_D (replicate n nan) = replicate n nan.
Proof.
  rewrite <- (length_replicate n nan) at 2.
  rewrite <- (length_rolling 3 mean (replicate n nan)).
  apply all_nan_replicate. intros i x Hx.
  destruct (rolling_replicate_cases 3 mean n nan i x ltac:(lia) Hx) as [-> | ->];
    reflexivity.
Qed.

(** C7, as amended.  On a table whose closes are all equal, the [RSI] column
    [calculate_indicators] leaves is missing at every bar; if every high and
    every low equals that close as well, so are the [Stoch_K] and [Stoch_D]
    columns. *)
Theorem constant_prices_leave_rsi_and_stoch_missing h df n c high low volume :
  holds h df high low (replicate n c) volume ->
  result_series (calculate_indicators df) h "RSI" = Some (replicate n nan) /\
  (high = replicate n c -> low = replicate n c ->
   result_series (calculate_indicators df) h "Stoch_K" = Some (replicate n nan) /\
   result_series (calculate_indicators df) h "Stoch_D" = Some (replicate n nan)).
Proof.
  intros H. split.
  - rewrite <- RSI_constant with (c := c). indicator_series H.
  - intros -> ->. split.
    + rewrite <- Stoch_K_constant with (c := c). indicator_series H.
    + rewrite <- Stoch_D_all_missing, <- Stoch_K_constant with (c := c).
      indicator_series H.
Qed.

Lemma constant_prices_leave_rsi_and_stoch_missing_witness :
  holds (store_of 1%positive
           (history dates15 (replicate 15 100) (replicate 15 100) (replicate 15 100)
              (replicate 15 100) volumes15))
    1%positive (replicate 15 100) (replicate 15 100) (replicate 15 100) volumes15 /\
  result_series (calculate_indicators 1%positive)
    (store_of 1%positive
       (history dates15 (replicate 15 100) (replicate 15 100) (replicate 15 100)
          (replicate 15 100) volumes15)) "RSI" = Some (replicate 15 nan) /\
  (replicate 15 100 = replicate 15 100 -> replicate 15 100 = replicate 15 100 ->
   result_series (calculate_indicators 1%positive)
     (store_of 1%positive
        (history dates15 (replicate 15 100) (replicate 15 100) (replicate 15 100)
           (replicate 15 100) volumes15)) "Stoch_K" = Some (replicate 15 nan) /\
   result_series (calculate_indicators 1%positive)
     (store_of 1%positive
        (history dates15 (replicate 15 100) (replicate 15 100) (replicate 15 100)
           (replicate 15 100) volumes15)) "Stoch_D" = Some (replicate 15 nan)).
Proof.
  split; [apply holds_history|].
  apply (constant_prices_leave_rsi_and_stoch_missing _ 1%positive 15 100
           (replicate 15 100) (replicate 15 100) volumes15).
  apply holds_history.
Defined.

(** C7 as stated fails: sixteen bars that all close at 100, each after trading
    between 99 and 101.  All closes are equal, the 14-bar range is 2, and from
    the 14th bar on [Stoch_K] is [50]; at the 16th bar [Stoch_D] is [50] too.
    (RSI is missing at every bar, as claimed.) *)
Lemma equal_closes_with_a_range_have_stoch :
  holds (store_of 1%positive range_bound_market) 1%positive
    (replicate 16 101) (replicate 16 99) (replicate 16 100) (replicate 16 5000) /\
  (forall i x, replicate 16 100 !! i = Some x -> x = 100) /\
  (exists ks ds,
     result_series (calculate_indicators 1%positive)
       (store_of 1%positive range_bound_market) "Stoch_K" = Some ks /\
     result_series (calculate_indicators 1%positive)
       (store_of 1%positive range_bound_market) "Stoch_D" = Some ds /\
     ks !! 13%nat = Some 50 /\ ks !! 15%nat = Some 50 /\ ds !! 15%nat = Some 50 /\
     isna 50 = false) /\
  result_series (calculate_indicators 1%positive)
    (store_of 1%positive range_bound_market) "RSI" = Some (replicate 16 nan).
Proof.
  split; [apply holds_history|]. split.
  - intros i x Hx. now apply lookup_replicate in Hx as [-> _].
  - split.
    + eexists _, _. repeat split; vm_compute; reflexivity.
    + vm_compute. reflexivity.
Qed.

(** ** C2: the percentile rank *)




Lemma Percentile_lookup (xs : list float) i v :
  xs !! i = Some v ->
  Percentile xs !! i
  = Some (if isna v then nan
          else float_of_nat (sum_ranks (count_lt xs v) (count_eq xs v))
               / float_of_nat (count_eq xs v)
               / float_of_nat (count_present xs) * 100).
Proof.
  intros Hv. unfold Percentile, rank_pct.
  rewrite !list_lookup_fmap, Hv. cbn. now destruct (isna v).
Qed.





(** * Further properties of the code *)

(** ** Missing columns *)

(** [calculate_indicators] reads [Close], then [Low], [High] and [Volume]; it
    raises [KeyError] for the first of them the table lacks, after assigning
    the columns that come before that read (none for [Close]; [EMA9],
    [EMA21], [SMA50], [RSI] for [Low] and [High]; also [Stoch_K], [Stoch_D]
    for [Volume]); with all four present it returns. *)
Theorem calculate_indicators_key_errors df (h : gmap positive DataFrame) t :
  h !! df = Some t ->
  (series t "Close" = None ->
   calculate_indicators df h = (Raises (KeyError "Close"), h)) /\
  (forall close, series t "Close" = Some close ->
     (series t "Low" = None ->
      calculate_indicators df h
      = (Raises (KeyError "Low"),
         <[df := mkDataFrame (index t) (close_columns close (columns t))]> h)) /\
     (forall low, series t "Low" = Some low ->
        (series t "High" = None ->
         calculate_indicators df h
         = (Raises (KeyError "High"),
            <[df := mkDataFrame (index t) (close_columns close (columns t))]> h)) /\
        (forall high, series t "High" = Some high ->
           (series t "Volume" = None ->
            calculate_indicators df h
            = (Raises (KeyError "Volume"),
               <[df := mkDataFrame (index t)
                         (price_columns high low close (columns t))]> h)) /\
           (forall volume, series t "Volume" = Some volume ->
              calculate_indicators df h
              = (Returns df,
                 <[df := mkDataFrame (index t)
                           (indicator_columns high low close volume (columns t))]> h))))).
Proof.
  intros Ht. split.
  { intros Hcl. rewrite <- (insert_id h df t Ht) at 1. unfold calculate_indicators.
    py_fail. now rewrite insert_id. }
  intros close Hcl. split.
  { intros Hlo. rewrite <- (insert_id h df t Ht) at 1. unfold calculate_indicators.
    repeat py_step. py_fail. reflexivity. }
  intros low Hlo. split.
  { intros Hhi. rewrite <- (insert_id h df t Ht) at 1. unfold calculate_indicators.
    repeat py_step. py_fail. reflexivity. }
  intros high Hhi. split.
  { intros Hvo. rewrite <- (insert_id h df t Ht) at 1. unfold calculate_indicators.
    repeat py_step. py_fail. reflexivity. }
  intros volume Hvo. now apply calculate_indicators_run.
Qed.

Lemma calculate_indicators_key_errors_witness :
  store_of 1%positive three_bars_no_volume !! 1%positive = Some three_bars_no_volume /\
  calculate_indicators 1%positive (store_of 1%positive three_bars_no_volume)
  = (Raises (KeyError "Volume"),
     <[1%positive := mkDataFrame (index three_bars_no_volume)
                       (price_columns highs3 lows3 closes3
                          (columns three_bars_no_volume))]>
       (store_of 1%positive three_bars_no_volume)).
Proof.
  split; [reflexivity|].
  exact (proj1 (proj2 (proj2 (proj2
           (calculate_indicators_key_errors 1%positive
              (store_of 1%positive three_bars_no_volume) three_bars_no_volume eq_refl)
           closes3 eq_refl) lows3 eq_refl) highs3 eq_refl) eq_refl).
Defined.

(** [calculate_timing_score] needs the columns [calculate_indicators] assigns:
    on a table without [EMA9] (one fresh from the data source) it raises
    [KeyError('EMA9')] and changes nothing, while after
    [calculate_indicators] has returned on that table it returns too. *)
Theorem calculate_timing_score_needs_indicators df (h : gmap positive DataFrame) t :
  h !! df = Some t ->
  series t "EMA9" = None ->
  calculate_timing_score df h = (Raises (KeyError "EMA9"), h) /\
  forall r h', calculate_indicators df h = (Returns r, h') ->
    exists h'', calculate_timing_score df h' = (Returns df, h'').
Proof.
  intros Ht Hema. split.
  - rewrite <- (insert_id h df t Ht) at 1. unfold calculate_timing_score.
    py_fail. now rewrite insert_id.
  - intros r h' Hrun.
    destruct (calculate_indicators_returns_inv df h r h' Hrun)
      as (high & low & close & volume & H).
    pose proof H as (t' & Ht' & Hhi & Hlo & Hcl & Hvo).
    pose proof (pipeline_run df h t' high low close volume Ht' Hhi Hlo Hcl Hvo) as Hp.
    unfold pipeline in Hp.
    rewrite (bind_returns _ _ _ _ _ Hrun) in Hp.
    pose proof (calculate_indicators_returns_df df h r h' Hrun) as ->.
    eauto.
Qed.

Lemma calculate_timing_score_needs_indicators_witness :
  store_of 1%positive three_bars !! 1%positive = Some three_bars /\
  series three_bars "EMA9" = None /\
  calculate_timing_score 1%positive (store_of 1%positive three_bars)
  = (Raises (KeyError "EMA9"), store_of 1%positive three_bars) /\
  forall r h', calculate_indicators 1%positive (store_of 1%positive three_bars) = (Returns r, h') ->
    exists h'', calculate_timing_score 1%positive h' = (Returns 1%positive, h'').
Proof.
  split; [reflexivity|]. split; [reflexivity|].
  apply (calculate_timing_score_needs_indicators 1%positive _ three_bars); reflexivity.
Defined.

(** ** One value per bar *)

Lemma length_ewm_from alpha y (xs : list float) : length (ewm_from alpha y xs) = length xs.
Proof.
  revert y. induction xs as [|x xs IH]; intros y; cbn; [reflexivity|]. now rewrite IH.
Qed.

Lemma length_ewm_mean span (xs : list float) : length (ewm_mean span xs) = length xs.
Proof. destruct xs; cbn; [reflexivity|]. now rewrite length_ewm_from. Qed.

Lemma length_cumsum (xs : list float) : length (cumsum xs) = length xs.
Proof.
  unfold cumsum. rewrite length_zip_with, length_np_cumsum, length_map. lia.
Qed.

Lemma length_rank_pct (xs : list float) : length (rank_pct xs) = length xs.
Proof. unfold rank_pct. apply length_map. Qed.

Lemma length_where cond (xs : list float) v :
  length (where_ cond xs v) = Nat.min (length cond) (length xs).
Proof. unfold where_. apply length_zip_with. Qed.

Lemma length_rowmax3 (a b c : list float) :
  length (rowmax3 a b c) = Nat.min (length a) (Nat.min (length b) (length c)).
Proof. unfold rowmax3. now rewrite !length_zip_with. Qed.

Ltac series_length :=
  repeat first
    [ rewrite length_map | rewrite length_zip_with | rewrite length_rolling
    | rewrite length_ewm_mean | rewrite length_cumsum | rewrite length_rank_pct
    | rewrite length_where | rewrite length_rowmax3 | rewrite length_shift
    | rewrite length_diff ].

Lemma indicator_lengths high low close volume n :
  length high = n -> length low = n -> length close = n -> length volume = n ->
  length (EMA9 close) = n /\ length (EMA21 close) = n /\ length (SMA50 close) = n /\
  length (RSI close) = n /\ length (Stoch_K high low close) = n /\
  length (Stoch_D (Stoch_K high low close)) = n /\ length (VWAP close volume) = n /\
  length (ATR high low close) = n /\ length (ATR_Percentile (ATR high low close)) = n /\
  length (Vol_Ratio volume) = n.
Proof.
  intros Hh Hl Hc Hv.
  unfold EMA9, EMA21, SMA50, RSI, rs, gain, loss, delta, Stoch_D, Stoch_K, low_14, high_14,
    VWAP, ATR_Percentile, ATR, true_range, Vol_Ratio, s_div, s_sub, s_mul.
  repeat split; series_length; lia.
Qed.

Lemma signal_lengths (x : indicators) n :
  length (i_ema9 x) = n -> length (i_ema21 x) = n -> length (i_sma50 x) = n ->
  length (i_rsi x) = n -> length (i_stoch_k x) = n -> length (i_stoch_d x) = n ->
  length (i_close x) = n -> length (i_vwap x) = n ->
  length (i_atr_percentile x) = n -> length (i_vol_ratio x) = n ->
  length (EMA_Signal (i_ema9 x) (i_ema21 x) (i_sma50 x)) = n /\
  length (RSI_Signal (i_rsi x)) = n /\
  length (Stoch_Signal (i_stoch_k x) (i_stoch_d x)) = n /\
  length (VWAP_Signal (i_close x) (i_vwap x)) = n /\
  length (IVP_Signal (i_atr_percentile x)) = n /\
  length (PC_Signal (i_vol_ratio x)) = n /\
  length (signal_scores x) = n /\
  length (Percentile (signal_scores x)) = n.
Proof.
  intros H1 H2 H3 H4 H5 H6 H7 H8 H9 H10.
  unfold Percentile, signal_scores, Timing_Score, EMA_Signal, RSI_Signal, Stoch_Signal,
    VWAP_Signal, IVP_Signal, PC_Signal, np_where_1_0, s_and, s_gt, s_add.
  repeat split; series_length; lia.
Qed.

(** Given one value per bar in each of the four source series, every column
    the pipeline assigns holds one value per bar as well: the eighteen
    derived columns stay aligned with the date index. *)
Theorem derived_columns_have_one_value_per_bar h df high low close volume n :
  holds h df high low close volume ->
  length high = n -> length low = n -> length close = n -> length volume = n ->
  forall key, key ∈ derived_names ->
    exists c, result_column (pipeline df) h key = Some c /\ column_length c = n.
Proof.
  intros (t & Ht & Hhi & Hlo & Hcl & Hvo) Lh Ll Lc Lv key Hkey.
  rewrite (result_column_pipeline h df high low close volume key t) by assumption.
  destruct (indicator_lengths high low close volume n Lh Ll Lc Lv)
    as (I1 & I2 & I3 & I4 & I5 & I6 & I7 & I8 & I9 & I10).
  destruct (signal_lengths (computed_indicators high low close volume) n
              I1 I2 I3 I4 I5 I6 Lc I7 I9 I10)
    as (S1 & S2 & S3 & S4 & S5 & S6 & S7 & S8).
  cbn [computed_indicators i_ema9 i_ema21 i_sma50 i_rsi i_stoch_k i_stoch_d i_close
       i_vwap i_atr_percentile i_vol_ratio] in *.
  unfold derived_names, indicator_names, score_names, signal_names in Hkey.
  cbn [app] in Hkey. unfold score_columns, indicator_columns.
  repeat (apply elem_of_cons in Hkey as [-> | Hkey]);
    [ .. | now apply elem_of_nil in Hkey ];
    repeat first [ rewrite lookup_insert_eq
                 | rewrite lookup_insert_ne by discriminate ];
    (eexists; split; [reflexivity | cbn [column_length]; assumption]).
Qed.

Lemma derived_columns_have_one_value_per_bar_witness :
  holds (store_of 1%positive rising_market) 1%positive highs15 lows15 closes15 volumes15 /\
  forall key, key ∈ derived_names ->
    exists c, result_column (pipeline 1%positive) (store_of 1%positive rising_market) key
              = Some c /\ column_length c = 15%nat.
Proof.
  split; [apply holds_history|].
  apply (derived_columns_have_one_value_per_bar _ 1%positive
           highs15 lows15 closes15 volumes15 15);
    [apply holds_history | reflexivity | reflexivity | reflexivity | reflexivity].
Defined.

(** ** Warm-up *)

Lemma div_nan_l x : nan / x = nan.
Proof.
  apply Prim2SF_inj. rewrite FloatAxioms.div_spec.
  change (Prim2SF nan) with S754_nan. reflexivity.
Qed.

Lemma div_nan_r x : x / nan = nan.
Proof.
  apply Prim2SF_inj. rewrite FloatAxioms.div_spec.
  change (Prim2SF nan) with S754_nan. now destruct (Prim2SF x).
Qed.

Lemma rolling_warm_up w agg (xs : list float) i :
  (S i < w)%nat -> (i < length xs)%nat -> rolling w agg xs !! i = Some nan.
Proof.
  intros Hw Hi. rewrite rolling_lookup by lia.
  now replace (Nat.ltb (S i) w) with true by (symmetry; apply Nat.ltb_lt; lia).
Qed.

Lemma rolling_missing_in_window w agg (xs : list float) i j :
  (0 < w)%nat -> (i < length xs)%nat -> (i < j + w)%nat -> (j <= i)%nat ->
  xs !! j = Some nan -> rolling w agg xs !! i = Some nan.
Proof.
  intros Hw Hi Hj Hji Hx. rewrite rolling_lookup by lia.
  destruct (Nat.ltb_spec (S i) w) as [|Hge]; [reflexivity|]. cbn [orb].
  replace (existsb isna (window w i xs)) with true; [reflexivity|].
  symmetry. apply existsb_exists. exists nan. split; [|reflexivity].
  apply list_elem_of_In, list_elem_of_lookup. exists (j - (S i - w))%nat.
  rewrite window_lookup by lia. rewrite <- Hx. f_equal. lia.
Qed.

Lemma RSI_warm_up close i : (i < 6)%nat -> (i < length close)%nat -> RSI close !! i = Some nan.
Proof.
  intros Hi Hn. unfold RSI, rs, s_div.
  rewrite list_lookup_fmap, lookup_zip_with.
  unfold gain at 1. rewrite rolling_warm_up; [|lia|].
  2:{ unfold delta. series_length. lia. }
  cbn. destruct (loss close !! i) as [l|] eqn:El.
  - cbn. now rewrite div_nan_l.
  - exfalso. apply lookup_ge_None in El. revert El.
    unfold loss, delta. series_length. lia.
Qed.

Lemma Stoch_K_warm_up high low close i :
  (i < 13)%nat -> (i < length high)%nat -> (i < length low)%nat -> (i < length close)%nat ->
  Stoch_K high low close !! i = Some nan.
Proof.
  intros Hi Hh Hl Hc.
  destruct (lookup_lt_is_Some_2 close i Hc) as [c Ec].
  rewrite (Stoch_K_lookup high low close i c nan nan Ec).
  - f_equal. rewrite !sub_nan_r. reflexivity.
  - unfold low_14. apply rolling_warm_up; lia.
  - unfold high_14. apply rolling_warm_up; lia.
Qed.

Lemma Stoch_D_warm_up high low close i :
  (i < 15)%nat -> (i < length high)%nat -> (i < length low)%nat -> (i < length close)%nat ->
  Stoch_D (Stoch_K high low close) !! i = Some nan.
Proof.
  intros Hi Hh Hl Hc. unfold Stoch_D.
  assert (Hlen : (i < length (Stoch_K high low close))%nat).
  { unfold Stoch_K, low_14, high_14, s_div, s_sub. series_length. lia. }
  destruct (Nat.lt_ge_cases i 2) as [Hlt|Hge].
  - apply rolling_warm_up; lia.
  - apply (rolling_missing_in_window 3 mean _ i (i - 2)); try lia.
    apply Stoch_K_warm_up; lia.
Qed.

Lemma Percentile_missing (xs : list float) i :
  xs !! i = Some nan -> Percentile xs !! i = Some nan.
Proof. intros H. now rewrite (Percentile_lookup xs i nan H). Qed.

Lemma SMA50_warm_up close i :
  (i < 49)%nat -> (i < length close)%nat -> SMA50 close !! i = Some nan.
Proof. intros Hi Hn. unfold SMA50. apply rolling_warm_up; lia. Qed.

Lemma ATR_warm_up high low close i :
  length high = length close -> length low = length close ->
  (i < 13)%nat -> (i < length close)%nat -> ATR high low close !! i = Some nan.
Proof.
  intros Lh Ll Hi Hn. unfold ATR. apply rolling_warm_up; [lia|].
  rewrite length_true_range; lia.
Qed.

Lemma Vol_Ratio_warm_up volume i :
  (i < 19)%nat -> (i < length volume)%nat -> Vol_Ratio volume !! i = Some nan.
Proof.
  intros Hi Hn. unfold Vol_Ratio, s_div. rewrite lookup_zip_with.
  destruct (lookup_lt_is_Some_2 volume i Hn) as [v Ev]. rewrite Ev. cbn.
  rewrite rolling_warm_up by lia. cbn. now rewrite div_nan_r.
Qed.

(** Until its window is full an indicator is missing: [SMA50] at the first 49
    bars, [RSI] at the first 6, [Stoch_K], [ATR] and [ATR_Percentile] at the
    first 13, [Stoch_D] at the first 15, [Vol_Ratio] at the first 19. *)
Theorem indicators_missing_during_warm_up high low close volume n i :
  length high = n -> length low = n -> length close = n -> length volume = n ->
  (i < n)%nat ->
  ((i < 49)%nat -> SMA50 close !! i = Some nan) /\
  ((i < 6)%nat -> RSI close !! i = Some nan) /\
  ((i < 13)%nat -> Stoch_K high low close !! i = Some nan) /\
  ((i < 15)%nat -> Stoch_D (Stoch_K high low close) !! i = Some nan) /\
  ((i < 13)%nat -> ATR high low close !! i = Some nan /\
                   ATR_Percentile (ATR high low close) !! i = Some nan) /\
  ((i < 19)%nat -> Vol_Ratio volume !! i = Some nan).
Proof.
  intros Lh Ll Lc Lv Hi.
  split; [intros H; apply SMA50_warm_up; lia|].
  split; [intros H; apply RSI_warm_up; lia|].
  split; [intros H; apply Stoch_K_warm_up; lia|].
  split; [intros H; apply Stoch_D_warm_up; lia|].
  split.
  - intros H.
    assert (Hatr : ATR high low close !! i = Some nan) by (apply ATR_warm_up; lia).
    split; [exact Hatr|]. now apply Percentile_missing.
  - intros H. apply Vol_Ratio_warm_up; lia.
Qed.

Lemma indicators_missing_during_warm_up_witness :
  length highs15 = 15%nat /\ length lows15 = 15%nat /\ length closes15 = 15%nat /\
  length volumes15 = 15%nat /\ (5 < 15)%nat /\
  ((5 < 49)%nat -> SMA50 closes15 !! 5%nat = Some nan) /\
  ((5 < 6)%nat -> RSI closes15 !! 5%nat = Some nan) /\
  ((5 < 13)%nat -> Stoch_K highs15 lows15 closes15 !! 5%nat = Some nan) /\
  ((5 < 15)%nat -> Stoch_D (Stoch_K highs15 lows15 closes15) !! 5%nat = Some nan) /\
  ((5 < 13)%nat -> ATR highs15 lows15 closes15 !! 5%nat = Some nan /\
                   ATR_Percentile (ATR highs15 lows15 closes15) !! 5%nat = Some nan) /\
  ((5 < 19)%nat -> Vol_Ratio volumes15 !! 5%nat = Some nan).
Proof.
  split; [reflexivity|]. split; [reflexivity|]. split; [reflexivity|].
  split; [reflexivity|]. split; [lia|].
  apply (indicators_missing_during_warm_up highs15 lows15 closes15 volumes15 15 5);
    reflexivity || lia.
Defined.

(** ** The scores a bar can get *)

Lemma score_of_bits_value a b c d e f :
  (a = 0 \/ a = 1) -> (b = 0 \/ b = 1) -> (c = 0 \/ c = 1) ->
  (d = 0 \/ d = 1) -> (e = 0 \/ e = 1) -> (f = 0 \/ f = 1) ->
  score a b c d e f ∈ score_values.
Proof.
  intros [-> | ->] [-> | ->] [-> | ->] [-> | ->] [-> | ->] [-> | ->];
    apply list_elem_of_In; vm_compute;
    repeat (first [left; reflexivity | right]).
Qed.

Lemma signal_scores_bits x i s :
  signal_scores x !! i = Some s ->
  exists a b c d e f,
    map float_of_int64 (EMA_Signal (i_ema9 x) (i_ema21 x) (i_sma50 x)) !! i = Some a /\
    map float_of_int64 (RSI_Signal (i_rsi x)) !! i = Some b /\
    map float_of_int64 (Stoch_Signal (i_stoch_k x) (i_stoch_d x)) !! i = Some c /\
    map float_of_int64 (VWAP_Signal (i_close x) (i_vwap x)) !! i = Some d /\
    map float_of_int64 (IVP_Signal (i_atr_percentile x)) !! i = Some e /\
    map float_of_int64 (PC_Signal (i_vol_ratio x)) !! i = Some f /\
    (a = 0 \/ a = 1) /\ (b = 0 \/ b = 1) /\ (c = 0 \/ c = 1) /\
    (d = 0 \/ d = 1) /\ (e = 0 \/ e = 1) /\ (f = 0 \/ f = 1) /\
    s = score a b c d e f.
Proof.
  unfold signal_scores. rewrite Timing_Score_lookup. intros Hs.
  destruct (map float_of_int64 (EMA_Signal _ _ _) !! i) as [a|] eqn:Ea; [|discriminate].
  destruct (map float_of_int64 (RSI_Signal _) !! i) as [b|] eqn:Eb; [|discriminate].
  destruct (map float_of_int64 (Stoch_Signal _ _) !! i) as [c|] eqn:Ec; [|discriminate].
  destruct (map float_of_int64 (VWAP_Signal _ _) !! i) as [d|] eqn:Ed; [|discriminate].
  destruct (map float_of_int64 (IVP_Signal _) !! i) as [e|] eqn:Ee; [|discriminate].
  destruct (map float_of_int64 (PC_Signal _) !! i) as [f|] eqn:Ef; [|discriminate].
  cbn in Hs. injection Hs as <-.
  exists a, b, c, d, e, f.
  repeat split; trivial; eapply bit_lookup; try eassumption; apply np_where_1_0_bits.
Qed.

(** Whatever the indicators, the [Timing_Score] column holds only twelve
    different values: 0, 10, 20, 30, 40, 50, 60, 70, 80 and the three rounded
    sums 30.000000000000004, 89.99999999999999 and 99.99999999999999.  Equal
    weights do not give equal scores: a bar with the EMA signal alone scores
    less than a bar with the RSI and VWAP signals, though both weigh 0.3. *)
Theorem timing_score_takes_twelve_values h df x :
  has_indicators h df x ->
  (exists scores,
     result_column (calculate_timing_score df) h "Timing_Score" = Some (FloatCol scores) /\
     Forall (fun s => s ∈ score_values) scores) /\
  (score 1 0 0 0 0 0 <? score 0 1 0 1 0 0) = true.
Proof.
  intros H. split; [|reflexivity].
  exists (signal_scores x). split.
  - score_column H. reflexivity.
  - apply Forall_lookup. intros i s Hs.
    destruct (signal_scores_bits x i s Hs)
      as (a & b & c & d & e & f & _ & _ & _ & _ & _ & _ & Ha & Hb & Hc & Hd & He & Hf & ->).
    now apply score_of_bits_value.
Qed.

Lemma timing_score_takes_twelve_values_witness :
  has_indicators (store_of 1%positive (indicator_table [0%Z] all_true_bar)) 1%positive all_true_bar /\
  (exists scores,
     result_column (calculate_timing_score 1%positive)
       (store_of 1%positive (indicator_table [0%Z] all_true_bar)) "Timing_Score"
     = Some (FloatCol scores) /\
     Forall (fun s => s ∈ score_values) scores) /\
  (score 1 0 0 0 0 0 <? score 0 1 0 1 0 0) = true.
Proof.
  split; [apply has_indicators_table|].
  apply (timing_score_takes_twelve_values _ 1%positive all_true_bar).
  apply has_indicators_table.
Defined.

(** ** Scores during warm-up *)

Lemma signal_zero_lookup (zs : list Z) i n :
  length zs = n -> (i < n)%nat ->
  (forall z, zs !! i = Some z -> z = 0%Z) ->
  map float_of_int64 zs !! i = Some 0.
Proof.
  intros Hlen Hi Hz.
  destruct (lookup_lt_is_Some_2 zs i ltac:(lia)) as [z Ez].
  change (map float_of_int64 zs) with (float_of_int64 <$> zs).
  rewrite list_lookup_fmap, Ez. cbn. now rewrite (Hz z Ez).
Qed.

Lemma missing_at_intro (xs : list float) i : xs !! i = Some nan -> missing_at xs i.
Proof. intros H. exists nan. now split. Qed.

(** While indicators warm up their signals are 0, which caps the score: at
    the first 6 bars only the VWAP signal can be set and the score is 0 or
    10; at the first 49 bars the EMA signal is 0 and the score is at most
    70. *)
Theorem early_bars_score_low high low close volume n i s :
  length high = n -> length low = n -> length close = n -> length volume = n ->
  signal_scores (computed_indicators high low close volume) !! i = Some s ->
  ((i < 49)%nat ->
   EMA_Signal (EMA9 close) (EMA21 close) (SMA50 close) !! i = Some 0%Z /\
   (s <=? 70) = true) /\
  ((i < 6)%nat -> s = 0 \/ s = 10).
Proof.
  intros Lh Ll Lc Lv Hs.
  set (x := computed_indicators high low close volume) in *.
  destruct (indicator_lengths high low close volume n Lh Ll Lc Lv)
    as (I1 & I2 & I3 & I4 & I5 & I6 & I7 & I8 & I9 & I10).
  destruct (signal_lengths x n I1 I2 I3 I4 I5 I6 Lc I7 I9 I10)
    as (S1 & S2 & S3 & S4 & S5 & S6 & S7 & S8).
  assert (Hi : (i < n)%nat) by (apply lookup_lt_Some in Hs; lia).
  assert (Wsma : (i < 49)%nat -> SMA50 close !! i = Some nan)
    by (intros; apply SMA50_warm_up; lia).
  assert (Wrsi : (i < 6)%nat -> RSI close !! i = Some nan)
    by (intros; apply RSI_warm_up; lia).
  assert (Wk : (i < 13)%nat -> Stoch_K high low close !! i = Some nan)
    by (intros; apply Stoch_K_warm_up; lia).
  assert (Watr : (i < 13)%nat -> ATR_Percentile (ATR high low close) !! i = Some nan)
    by (intros; apply Percentile_missing, ATR_warm_up; lia).
  assert (Wvol : (i < 19)%nat -> Vol_Ratio volume !! i = Some nan)
    by (intros; apply Vol_Ratio_warm_up; lia).
  destruct (signal_scores_bits x i s Hs)
    as (a & b & c & d & e & f & Ea & Eb & Ec & Ed & Ee & Ef
        & Ha & Hb & Hc & Hd & He & Hf & ->).
  assert (Zema : (i < 49)%nat ->
            forall z, EMA_Signal (i_ema9 x) (i_ema21 x) (i_sma50 x) !! i = Some z -> z = 0%Z).
  { intros Hlt z. apply (proj1 (missing_indicator_signal_0 x i z)).
    right. right. apply missing_at_intro. now apply Wsma. }
  split.
  - intros Hlt.
    pose proof (signal_zero_lookup _ i n S1 Hi (Zema Hlt)) as E0.
    rewrite E0 in Ea. injection Ea as <-.
    split.
    + destruct (lookup_lt_is_Some_2 (EMA_Signal (i_ema9 x) (i_ema21 x) (i_sma50 x)) i
                  ltac:(lia)) as [z Ez].
      change (EMA_Signal (EMA9 close) (EMA21 close) (SMA50 close))
        with (EMA_Signal (i_ema9 x) (i_ema21 x) (i_sma50 x)).
      now rewrite Ez, (Zema Hlt z Ez).
    + destruct Hb as [-> | ->], Hc as [-> | ->], Hd as [-> | ->],
        He as [-> | ->], Hf as [-> | ->]; reflexivity.
  - intros Hlt.
    assert (E1 := signal_zero_lookup _ i n S1 Hi (Zema ltac:(lia))).
    assert (E2 := signal_zero_lookup _ i n S2 Hi
              (fun z => proj1 (proj2 (missing_indicator_signal_0 x i z))
                          (missing_at_intro _ _ (Wrsi Hlt)))).
    assert (E3 := signal_zero_lookup _ i n S3 Hi
              (fun z => proj1 (proj2 (proj2 (missing_indicator_signal_0 x i z)))
                          (or_introl (missing_at_intro _ _ (Wk ltac:(lia)))))).
    assert (E5 := signal_zero_lookup _ i n S5 Hi
              (fun z => proj1 (proj2 (proj2 (proj2 (proj2 (missing_indicator_signal_0 x i z)))))
                          (missing_at_intro _ _ (Watr ltac:(lia))))).
    assert (E6 := signal_zero_lookup _ i n S6 Hi
              (fun z => proj2 (proj2 (proj2 (proj2 (proj2 (missing_indicator_signal_0 x i z)))))
                          (missing_at_intro _ _ (Wvol ltac:(lia))))).
    rewrite E1 in Ea. rewrite E2 in Eb. rewrite E3 in Ec. rewrite E5 in Ee. rewrite E6 in Ef.
    injection Ea as <-. injection Eb as <-. injection Ec as <-.
    injection Ee as <-. injection Ef as <-.
    destruct Hd as [-> | ->]; [left|right]; reflexivity.
Qed.

Lemma early_bars_score_low_witness :
  length highs15 = 15%nat /\ length lows15 = 15%nat /\ length closes15 = 15%nat /\
  length volumes15 = 15%nat /\
  signal_scores (computed_indicators highs15 lows15 closes15 volumes15) !! 3%nat = Some 10 /\
  ((3 < 49)%nat ->
   EMA_Signal (EMA9 closes15) (EMA21 closes15) (SMA50 closes15) !! 3%nat = Some 0%Z /\
   (10 <=? 70) = true) /\
  ((3 < 6)%nat -> 10 = 0 \/ 10 = 10).
Proof.
  split; [reflexivity|]. split; [reflexivity|]. split; [reflexivity|].
  split; [reflexivity|]. split; [vm_compute; reflexivity|].
  apply (early_bars_score_low highs15 lows15 closes15 volumes15 15 3 10);
    reflexivity.
Defined.

(** ** The gauge agrees with the trade signal *)

(** The gauge bar is coloured by the same thresholds as the trade signal:
    green exactly for ["Buy Call"], yellow exactly for ["Hold"], red exactly
    for ["Avoid"] (a missing percentile included); and ["Buy Call"] is shown
    exactly when the percentile reaches the threshold line of the gauge. *)
Theorem gauge_color_matches_signal (p : float) :
  (bar_color p = "green" <-> signal p = "Buy Call") /\
  (bar_color p = "yellow" <-> signal p = "Hold") /\
  (bar_color p = "red" <-> signal p = "Avoid") /\
  (signal p = "Buy Call" <-> (gauge_threshold <=? p) = true).
Proof.
  unfold bar_color, signal, gauge_threshold, geb.
  destruct (80 <=? p), (50 <=? p); repeat split; intros; congruence.
Qed.

(** ** The six conditions at one bar *)

(** Each signal of a bar is decided by the indicator values of that bar alone:
    [EMA_Signal] is 1 exactly when EMA9 > EMA21 and EMA21 > SMA50,
    [RSI_Signal] when 35 <= RSI <= 50 (both ends included), [Stoch_Signal]
    when Stoch_K > Stoch_D and Stoch_K < 20 (20 excluded), [VWAP_Signal] when
    close > VWAP, [IVP_Signal] when 20 <= ATR_Percentile <= 40 (both ends
    included), [PC_Signal] when Vol_Ratio > 1.2 (1.2 excluded); otherwise the
    signal is 0. *)
Theorem signals_decided_bar_by_bar (x : indicators) (i : nat)
    (e9 e21 s50 rsi k d c v p r : float) :
  i_ema9 x !! i = Some e9 -> i_ema21 x !! i = Some e21 -> i_sma50 x !! i = Some s50 ->
  i_rsi x !! i = Some rsi -> i_stoch_k x !! i = Some k -> i_stoch_d x !! i = Some d ->
  i_close x !! i = Some c -> i_vwap x !! i = Some v ->
  i_atr_percentile x !! i = Some p -> i_vol_ratio x !! i = Some r ->
  (exists z, EMA_Signal (i_ema9 x) (i_ema21 x) (i_sma50 x) !! i = Some z /\ is_bit z /\
     (z = 1%Z <-> (e21 <? e9) = true /\ (s50 <? e21) = true)) /\
  (exists z, RSI_Signal (i_rsi x) !! i = Some z /\ is_bit z /\
     (z = 1%Z <-> (35 <=? rsi) = true /\ (rsi <=? 50) = true)) /\
  (exists z, Stoch_Signal (i_stoch_k x) (i_stoch_d x) !! i = Some z /\ is_bit z /\
     (z = 1%Z <-> (d <? k) = true /\ (k <? 20) = true)) /\
  (exists z, VWAP_Signal (i_close x) (i_vwap x) !! i = Some z /\ is_bit z /\
     (z = 1%Z <-> (v <? c) = true)) /\
  (exists z, IVP_Signal (i_atr_percentile x) !! i = Some z /\ is_bit z /\
     (z = 1%Z <-> (20 <=? p) = true /\ (p <=? 40) = true)) /\
  (exists z, PC_Signal (i_vol_ratio x) !! i = Some z /\ is_bit z /\
     (z = 1%Z <-> (1.2 <? r) = true)).
Proof.
  intros H1 H2 H3 H4 H5 H6 H7 H8 H9 H10. unfold is_bit.
  rewrite EMA_Signal_lookup, RSI_Signal_lookup, Stoch_Signal_lookup, VWAP_Signal_lookup,
    IVP_Signal_lookup, PC_Signal_lookup.
  rewrite H1, H2, H3, H4, H5, H6, H7, H8, H9, H10. cbn. unfold gtb, geb.
  repeat split;
    match goal with
    | |- exists z, Some ?v = Some z /\ _ => exists v; split; [reflexivity|]
    end.
  - destruct (e21 <? e9), (s50 <? e21); cbn; intuition congruence.
  - destruct (35 <=? rsi), (rsi <=? 50); cbn; intuition congruence.
  - destruct (d <? k), (k <? 20); cbn; intuition congruence.
  - destruct (v <? c); cbn; intuition congruence.
  - destruct (20 <=? p), (p <=? 40); cbn; intuition congruence.
  - destruct (1.2 <? r); cbn; intuition congruence.
Qed.

Lemma signals_decided_bar_by_bar_witness :
  i_ema9 all_true_bar !! 0%nat = Some 3 /\
  (exists z, EMA_Signal (i_ema9 all_true_bar) (i_ema21 all_true_bar) (i_sma50 all_true_bar)
               !! 0%nat = Some z /\ is_bit z /\
     (z = 1%Z <-> (2 <? 3) = true /\ (1 <? 2) = true)) /\
  (exists z, RSI_Signal (i_rsi all_true_bar) !! 0%nat = Some z /\ is_bit z /\
     (z = 1%Z <-> (35 <=? 40) = true /\ (40 <=? 50) = true)) /\
  (exists z, Stoch_Signal (i_stoch_k all_true_bar) (i_stoch_d all_true_bar) !! 0%nat
             = Some z /\ is_bit z /\
     (z = 1%Z <-> (5 <? 10) = true /\ (10 <? 20) = true)) /\
  (exists z, VWAP_Signal (i_close all_true_bar) (i_vwap all_true_bar) !! 0%nat = Some z /\
     is_bit z /\ (z = 1%Z <-> (1 <? 2) = true)) /\
  (exists z, IVP_Signal (i_atr_percentile all_true_bar) !! 0%nat = Some z /\ is_bit z /\
     (z = 1%Z <-> (20 <=? 30) = true /\ (30 <=? 40) = true)) /\
  (exists z, PC_Signal (i_vol_ratio all_true_bar) !! 0%nat = Some z /\ is_bit z /\
     (z = 1%Z <-> (1.2 <? 2) = true)).
Proof.
  split; [reflexivity|].
  apply (signals_decided_bar_by_bar all_true_bar 0 3 2 1 40 10 5 2 1 30 2); reflexivity.
Defined.

(** ** The latest bar: no bars, one bar *)

Lemma latest_signal_run (h : gmap positive DataFrame) df t ps p :
  h !! df = Some t -> index t <> [] ->
  series t "Percentile" = Some ps -> last ps = Some p ->
  is_Some (series t "Timing_Score") ->
  latest_signal df h = (Returns (signal p), h).
Proof.
  intros Ht Hbars Hp Hlast [ss Hs]. unfold latest_signal.
  erewrite bind_returns by (unfold len; now rewrite Ht).
  destruct (index t) as [|d ds] eqn:Ei; [congruence|]. cbn [length Nat.eqb].
  rewrite <- (insert_id h df t Ht).
  rewrite (bind_returns _ _ _ _ _ (getitem_insert df "Percentile" t h _ Hp)).
  rewrite (bind_returns _ _ _ _ _ (getitem_insert df "Timing_Score" t h _ Hs)).
  now rewrite Hlast.
Qed.

Lemma latest_signal_no_bars (h : gmap positive DataFrame) df t :
  h !! df = Some t -> index t = [] -> latest_signal df h = (Raises IndexError, h).
Proof.
  intros Ht Hbars. unfold latest_signal.
  rewrite (bind_returns _ _ h 0%nat h); [reflexivity|].
  unfold len. now rewrite Ht, Hbars.
Qed.

Lemma derived_column_lengths h df high low close volume n key :
  holds h df high low close volume ->
  length high = n -> length low = n -> length close = n -> length volume = n ->
  key ∈ derived_names ->
  exists c, result_column (pipeline df) h key = Some c /\ column_length c = n.
Proof.
  intros (t & Ht & Hhi & Hlo & Hcl & Hvo) Lh Ll Lc Lv Hkey.
  rewrite (result_column_pipeline h df high low close volume key t) by assumption.
  destruct (indicator_lengths high low close volume n Lh Ll Lc Lv)
    as (I1 & I2 & I3 & I4 & I5 & I6 & I7 & I8 & I9 & I10).
  destruct (signal_lengths (computed_indicators high low close volume) n
              I1 I2 I3 I4 I5 I6 Lc I7 I9 I10)
    as (S1 & S2 & S3 & S4 & S5 & S6 & S7 & S8).
  cbn [computed_indicators i_ema9 i_ema21 i_sma50 i_rsi i_stoch_k i_stoch_d i_close
       i_vwap i_atr_percentile i_vol_ratio] in *.
  unfold derived_names, indicator_names, score_names, signal_names in Hkey.
  cbn [app] in Hkey. unfold score_columns, indicator_columns.
  repeat (apply elem_of_cons in Hkey as [-> | Hkey]);
    [ .. | now apply elem_of_nil in Hkey ];
    repeat first [ rewrite lookup_insert_eq
                 | rewrite lookup_insert_ne by discriminate ];
    (eexists; split; [reflexivity | cbn [column_length]; assumption]).
Qed.

Lemma pipeline_table h df t high low close volume :
  h !! df = Some t ->
  series t "High" = Some high -> series t "Low" = Some low ->
  series t "Close" = Some close -> series t "Volume" = Some volume ->
  exists t',
    pipeline df h = (Returns df, <[df := t']> h) /\
    index t' = index t /\
    series t' "Timing_Score"
    = Some (signal_scores (computed_indicators high low close volume)) /\
    series t' "Percentile"
    = Some (Percentile (signal_scores (computed_indicators high low close volume))).
Proof.
  intros Ht Hhi Hlo Hcl Hvo.
  exists (mkDataFrame (index t)
            (score_columns (computed_indicators high low close volume)
               (indicator_columns high low close volume (columns t)))).
  split.
  - now apply pipeline_run.
  - cbn [index]. split; [reflexivity|]. unfold series, score_columns. cbn [columns].
    split;
      repeat first [ rewrite lookup_insert_eq
                   | rewrite lookup_insert_ne by discriminate ];
      reflexivity.
Qed.

(** A table without bars goes through both functions (every derived column
    comes out empty), and the display loop then fails on it: [df.iloc[-1]]
    raises [IndexError]. *)
Theorem no_bars_computes_then_display_fails (h : gmap positive DataFrame) df t :
  h !! df = Some t -> index t = [] ->
  series t "High" = Some [] -> series t "Low" = Some [] ->
  series t "Close" = Some [] -> series t "Volume" = Some [] ->
  exists h',
    pipeline df h = (Returns df, h') /\
    (forall key, key ∈ derived_names ->
       exists c, result_column (pipeline df) h key = Some c /\ column_length c = 0%nat) /\
    latest_signal df h' = (Raises IndexError, h').
Proof.
  intros Ht Hbars Hhi Hlo Hcl Hvo.
  destruct (pipeline_table h df t [] [] [] [] Ht Hhi Hlo Hcl Hvo)
    as (t' & Hrun & Hidx & _ & _).
  exists (<[df := t']> h). split; [exact Hrun|]. split.
  - intros key Hkey.
    apply (derived_column_lengths h df [] [] [] [] 0); trivial.
    exists t. auto.
  - apply (latest_signal_no_bars _ df t'); [apply lookup_insert_eq|congruence].
Qed.

Lemma no_bars_computes_then_display_fails_witness :
  store_of 1%positive no_bars !! 1%positive = Some no_bars /\
  exists h',
    pipeline 1%positive (store_of 1%positive no_bars) = (Returns 1%positive, h') /\
    (forall key, key ∈ derived_names ->
       exists c, result_column (pipeline 1%positive) (store_of 1%positive no_bars) key
                 = Some c /\ column_length c = 0%nat) /\
    latest_signal 1%positive h' = (Raises IndexError, h').
Proof.
  split; [reflexivity|].
  apply (no_bars_computes_then_display_fails _ 1%positive no_bars); reflexivity.
Defined.

Lemma ltb_irrefl x : (x <? x) = false.
Proof.
  destruct (x <? x) eqn:E; [|reflexivity].
  pose proof (ltb_leb _ _ E) as H1. pose proof (ltb_leb_false _ _ E) as H2. congruence.
Qed.

Lemma Percentile_single s : isna s = false -> Percentile [s] = [100].
Proof.
  intros Hs. unfold Percentile, rank_pct, count_lt, count_eq, count_present.
  cbn [map List.filter]. rewrite Hs, ltb_irrefl.
  unfold isna in Hs. apply negb_false_iff in Hs. rewrite Hs. reflexivity.
Qed.

(** With a single bar of history the percentile is 100 whatever the bar's
    score, so the dashboard shows ["Buy Call"]: one value is ranked first of
    one. *)
Theorem single_bar_shows_buy_call (h : gmap positive DataFrame) df t hi lo c v :
  h !! df = Some t -> length (index t) = 1%nat ->
  series t "High" = Some [hi] -> series t "Low" = Some [lo] ->
  series t "Close" = Some [c] -> series t "Volume" = Some [v] ->
  exists h',
    pipeline df h = (Returns df, h') /\
    result_series (pipeline df) h "Percentile" = Some [100] /\
    latest_signal df h' = (Returns "Buy Call", h').
Proof.
  intros Ht Hbars Hhi Hlo Hcl Hvo.
  destruct (pipeline_table h df t [hi] [lo] [c] [v] Ht Hhi Hlo Hcl Hvo)
    as (t' & Hrun & Hidx & Hts & Hpc).
  set (x := computed_indicators [hi] [lo] [c] [v]) in *.
  assert (Hlen : length (signal_scores x) = 1%nat).
  { destruct (indicator_lengths [hi] [lo] [c] [v] 1 eq_refl eq_refl eq_refl eq_refl)
      as (I1 & I2 & I3 & I4 & I5 & I6 & I7 & I8 & I9 & I10).
    now destruct (signal_lengths x 1 I1 I2 I3 I4 I5 I6 eq_refl I7 I9 I10)
      as (_ & _ & _ & _ & _ & _ & S7 & _). }
  destruct (signal_scores x) as [|s [|? ?]] eqn:Es; try discriminate.
  assert (Hs : isna s = false).
  { pose proof (signal_scores_in_range x) as Hr. rewrite Es in Hr.
    apply Forall_cons in Hr as [(Hna & _) _]. exact Hna. }
  rewrite (Percentile_single s Hs) in Hpc.
  exists (<[df := t']> h). split; [exact Hrun|]. split.
  - unfold result_series, result_column. rewrite Hrun, lookup_insert_eq. exact Hpc.
  - change "Buy Call" with (signal 100).
    apply (latest_signal_run _ df t' [100] 100);
      [ apply lookup_insert_eq
      | intros E; rewrite <- Hidx, E in Hbars; discriminate
      | exact Hpc
      | reflexivity
      | eauto ].
Qed.

Lemma single_bar_shows_buy_call_witness :
  store_of 1%positive one_bar !! 1%positive = Some one_bar /\
  length (index one_bar) = 1%nat /\
  exists h',
    pipeline 1%positive (store_of 1%positive one_bar) = (Returns 1%positive, h') /\
    result_series (pipeline 1%positive) (store_of 1%positive one_bar) "Percentile"
    = Some [100] /\
    latest_signal 1%positive h' = (Returns "Buy Call", h').
Proof.
  split; [reflexivity|]. split; [reflexivity|].
  apply (single_bar_shows_buy_call _ 1%positive one_bar 11 8 10 1000); reflexivity.
Defined.

(** ** The percentile does not look at the order of the bars *)

Lemma filter_length_Permutation (f : float -> bool) (xs ys : list float) :
  xs ≡ₚ ys -> length (List.filter f xs) = length (List.filter f ys).
Proof.
  induction 1 as [|x xs ys _ IH|x y xs|xs ys zs _ IH1 _ IH2]; cbn [List.filter].
  - reflexivity.
  - destruct (f x); cbn [length]; now rewrite IH.
  - destruct (f x), (f y); reflexivity.
  - now rewrite IH1.
Qed.

(** A bar's percentile is a function of its value and of the values of all
    bars of the series, earlier and later ones alike, whatever their order:
    in a reordered series the same value has the same percentile.  In
    particular bars with equal scores share one percentile. *)
Theorem percentile_ignores_bar_order (xs ys : list float) (i j : nat) (v : float) :
  xs ≡ₚ ys -> xs !! i = Some v -> ys !! j = Some v ->
  Percentile xs !! i = Percentile ys !! j.
Proof.
  intros Hp Hi Hj.
  rewrite (Percentile_lookup xs i v Hi), (Percentile_lookup ys j v Hj).
  unfold count_lt, count_eq, count_present.
  now rewrite !(filter_length_Permutation _ xs ys Hp).
Qed.

Lemma percentile_ignores_bar_order_witness :
  ([0; 10; 10] : list float) ≡ₚ [10; 0; 10] /\
  Percentile [0; 10; 10] !! 1%nat = Percentile [10; 0; 10] !! 0%nat.
Proof.
  split; [apply perm_swap|].
  apply (percentile_ignores_bar_order [0; 10; 10] [10; 0; 10] 1 0 10);
    [apply perm_swap | reflexivity | reflexivity].
Defined.

(** ** Two tables do not interfere *)

(** Processing one symbol's table leaves the other's alone: run on two
    different tables of one store, the pipeline leaves the same store in
    either order, and in it each table is what the pipeline makes of it on
    its own. *)
Theorem pipeline_tables_independent (h : gmap positive DataFrame) df1 df2
    high1 low1 close1 volume1 high2 low2 close2 volume2 :
  df1 <> df2 ->
  holds h df1 high1 low1 close1 volume1 ->
  holds h df2 high2 low2 close2 volume2 ->
  (pipeline df2 (pipeline df1 h).2).2 = (pipeline df1 (pipeline df2 h).2).2 /\
  (pipeline df2 (pipeline df1 h).2).1 = Returns df2 /\
  (pipeline df2 (pipeline df1 h).2).2 !! df1 = (pipeline df1 h).2 !! df1 /\
  (pipeline df2 (pipeline df1 h).2).2 !! df2 = (pipeline df2 h).2 !! df2.
Proof.
  intros Hne (t1 & Ht1 & Hhi1 & Hlo1 & Hcl1 & Hvo1) (t2 & Ht2 & Hhi2 & Hlo2 & Hcl2 & Hvo2).
  rewrite (pipeline_run df1 h t1 high1 low1 close1 volume1) by assumption.
  rewrite (pipeline_run df2 h t2 high2 low2 close2 volume2) by assumption.
  cbn [snd].
  rewrite (pipeline_run df2 _ t2 high2 low2 close2 volume2)
    by (trivial; now rewrite lookup_insert_ne).
  rewrite (pipeline_run df1 _ t1 high1 low1 close1 volume1)
    by (trivial; now rewrite lookup_insert_ne).
  cbn [fst snd]. split; [symmetry; now apply insert_insert_ne|]. split; [reflexivity|].
  split.
  - now rewrite lookup_insert_ne, !lookup_insert_eq.
  - now rewrite !lookup_insert_eq.
Qed.

Lemma pipeline_tables_independent_witness :
  let h : gmap positive DataFrame := <[2%positive := rising_market]> (store_of 1%positive three_bars) in
  (1 <> 2)%positive /\
  holds h 1%positive highs3 lows3 closes3 volumes3 /\
  holds h 2%positive highs15 lows15 closes15 volumes15 /\
  (pipeline 2%positive (pipeline 1%positive h).2).2
  = (pipeline 1%positive (pipeline 2%positive h).2).2 /\
  (pipeline 2%positive (pipeline 1%positive h).2).1 = Returns 2%positive /\
  (pipeline 2%positive (pipeline 1%positive h).2).2 !! 1%positive
  = (pipeline 1%positive h).2 !! 1%positive /\
  (pipeline 2%positive (pipeline 1%positive h).2).2 !! 2%positive
  = (pipeline 2%positive h).2 !! 2%positive.
Proof.
  intros h.
  assert (H1 : holds h 1%positive highs3 lows3 closes3 volumes3)
    by (exists three_bars; repeat split; reflexivity).
  assert (H2 : holds h 2%positive highs15 lows15 closes15 volumes15)
    by (exists rising_market; repeat split; reflexivity).
  split; [discriminate|]. split; [exact H1|]. split; [exact H2|].
  apply (pipeline_tables_independent h 1%positive 2%positive
           highs3 lows3 closes3 volumes3 highs15 lows15 closes15 volumes15);
    [discriminate | exact H1 | exact H2].
Defined.

(** ** The rolling indicators at one bar *)





(** ** The price changes behind RSI *)













(** ** No look-ahead *)

Lemma take_shift n (xs : list float) : take n (shift xs) = shift (take n xs).
Proof.
  rewrite !shift_take, take_take, length_take.
  destruct (Nat.min n (length xs)) as [|m] eqn:Em; [reflexivity|].
  cbn [take]. f_equal. rewrite take_take. f_equal. lia.
Qed.

Lemma take_diff n (xs : list float) : take n (diff xs) = diff (take n xs).
Proof. unfold diff. now rewrite zip_with_take, take_shift. Qed.

Lemma take_where n cond (xs : list float) other :
  take n (where_ cond xs other) = where_ (take n cond) (take n xs) other.
Proof. unfold where_. apply zip_with_take. Qed.

Lemma take_map {A B} (f : A -> B) n (xs : list A) : take n (map f xs) = map f (take n xs).
Proof. symmetry. apply fmap_take. Qed.

Lemma take_rolling_from w agg n (xs : list float) :
  forall buf, take n (rolling_from w agg buf xs) = rolling_from w agg buf (take n xs).
Proof.
  revert n. induction xs as [|x xs IH]; intros [|n] buf; try reflexivity.
  cbn [rolling_from take]. f_equal. apply IH.
Qed.

Lemma take_rolling w agg n (xs : list float) :
  take n (rolling w agg xs) = rolling w agg (take n xs).
Proof. apply take_rolling_from. Qed.

Lemma take_ewm_from alpha n (xs : list float) :
  forall y, take n (ewm_from alpha y xs) = ewm_from alpha y (take n xs).
Proof.
  revert n. induction xs as [|x xs IH]; intros [|n] y; try reflexivity.
  cbn [ewm_from take]. f_equal. apply IH.
Qed.

Lemma take_ewm_mean span n (xs : list float) :
  take n (ewm_mean span xs) = ewm_mean span (take n xs).
Proof.
  destruct xs as [|x xs], n as [|n]; try reflexivity.
  cbn [ewm_mean take]. f_equal. apply take_ewm_from.
Qed.

Lemma take_np_cumsum_from n (xs : list float) :
  forall acc, take n (np_cumsum_from acc xs) = np_cumsum_from acc (take n xs).
Proof.
  revert n. induction xs as [|x xs IH]; intros [|n] acc; try reflexivity.
  cbn [np_cumsum_from take]. f_equal. apply IH.
Qed.

Lemma take_cumsum n (xs : list float) : take n (cumsum xs) = cumsum (take n xs).
Proof.
  unfold cumsum. rewrite zip_with_take. f_equal. rewrite <- take_map.
  generalize (map (fun x => if isna x then 0 else x) xs). intros ys.
  destruct ys as [|y ys], n as [|n]; try reflexivity.
  cbn [np_cumsum take]. f_equal. apply take_np_cumsum_from.
Qed.

Lemma take_rowmax3 n (a b c : list float) :
  take n (rowmax3 a b c) = rowmax3 (take n a) (take n b) (take n c).
Proof. unfold rowmax3. now rewrite !zip_with_take. Qed.

Ltac push_take :=
  repeat first
    [ rewrite zip_with_take | rewrite take_map | rewrite take_rolling
    | rewrite take_ewm_mean | rewrite take_cumsum | rewrite take_rowmax3
    | rewrite take_shift | rewrite take_diff | rewrite take_where ].

(** Seven indicators look at past bars only: the values at the first [n] bars
    are what the same computation gives on a history cut after bar [n], so a
    bar's SMA, RSI, Stochastic, VWAP, ATR and volume ratio never change when
    later bars arrive.  The four signals read from them inherit this.
    [ATR_Percentile] (and with it [IVP_Signal], [Timing_Score] and
    [Percentile]) is a rank within the whole series and is not in the list. *)
Theorem indicators_use_past_bars_only (n : nat) (high low close volume : list float) :
  take n (SMA50 close) = SMA50 (take n close) /\
  take n (RSI close) = RSI (take n close) /\
  take n (Stoch_K high low close) = Stoch_K (take n high) (take n low) (take n close) /\
  take n (Stoch_D (Stoch_K high low close))
  = Stoch_D (Stoch_K (take n high) (take n low) (take n close)) /\
  take n (VWAP close volume) = VWAP (take n close) (take n volume) /\
  take n (ATR high low close) = ATR (take n high) (take n low) (take n close) /\
  take n (Vol_Ratio volume) = Vol_Ratio (take n volume) /\
  take n (RSI_Signal (RSI close)) = RSI_Signal (RSI (take n close)) /\
  take n (Stoch_Signal (Stoch_K high low close) (Stoch_D (Stoch_K high low close)))
  = Stoch_Signal (Stoch_K (take n high) (take n low) (take n close))
      (Stoch_D (Stoch_K (take n high) (take n low) (take n close))) /\
  take n (VWAP_Signal close (VWAP close volume))
  = VWAP_Signal (take n close) (VWAP (take n close) (take n volume)) /\
  take n (PC_Signal (Vol_Ratio volume)) = PC_Signal (Vol_Ratio (take n volume)).
Proof.
  assert (Hk : take n (Stoch_K high low close)
               = Stoch_K (take n high) (take n low) (take n close)).
  { unfold Stoch_K, low_14, high_14, s_div, s_sub. now push_take. }
  assert (Hrsi : take n (RSI close) = RSI (take n close)).
  { unfold RSI, rs, gain, loss, delta, s_div. now push_take. }
  assert (Hvwap : take n (VWAP close volume) = VWAP (take n close) (take n volume)).
  { unfold VWAP, s_div, s_mul. now push_take. }
  assert (Hvol : take n (Vol_Ratio volume) = Vol_Ratio (take n volume)).
  { unfold Vol_Ratio, s_div. now push_take. }
  assert (Hd : take n (Stoch_D (Stoch_K high low close))
               = Stoch_D (Stoch_K (take n high) (take n low) (take n close))).
  { unfold Stoch_D. now rewrite take_rolling, Hk. }
  repeat split; trivial.
  - apply take_rolling.
  - unfold ATR, true_range, s_sub. now push_take.
  - unfold RSI_Signal, np_where_1_0, s_and. rewrite <- Hrsi. now push_take.
  - unfold Stoch_Signal, np_where_1_0, s_and, s_gt. rewrite <- Hd, <- Hk. now push_take.
  - unfold VWAP_Signal, np_where_1_0, s_gt. rewrite <- Hvwap. now push_take.
  - unfold PC_Signal, np_where_1_0. rewrite <- Hvol. now push_take.
Qed.

(** ** The score orders bars by their signals *)

Lemma signal_lookup_float zs i (z : Z) :
  zs !! i = Some z -> map float_of_int64 zs !! i = Some (float_of_int64 z).
Proof.
  intros Hz. change (map float_of_int64 zs) with (float_of_int64 <$> zs).
  now rewrite list_lookup_fmap, Hz.
Qed.

Lemma signal_scores_lookup x i a b c d e f :
  EMA_Signal (i_ema9 x) (i_ema21 x) (i_sma50 x) !! i = Some a ->
  RSI_Signal (i_rsi x) !! i = Some b ->
  Stoch_Signal (i_stoch_k x) (i_stoch_d x) !! i = Some c ->
  VWAP_Signal (i_close x) (i_vwap x) !! i = Some d ->
  IVP_Signal (i_atr_percentile x) !! i = Some e ->
  PC_Signal (i_vol_ratio x) !! i = Some f ->
  signal_scores x !! i
  = Some (score (float_of_int64 a) (float_of_int64 b) (float_of_int64 c)
                (float_of_int64 d) (float_of_int64 e) (float_of_int64 f)).
Proof.
  intros Ha Hb Hc Hd He Hf. unfold signal_scores. rewrite Timing_Score_lookup.
  rewrite (signal_lookup_float _ _ _ Ha), (signal_lookup_float _ _ _ Hb),
    (signal_lookup_float _ _ _ Hc), (signal_lookup_float _ _ _ Hd),
    (signal_lookup_float _ _ _ He), (signal_lookup_float _ _ _ Hf).
  reflexivity.
Qed.

Lemma bits_ordered (z z' : Z) :
  is_bit z -> is_bit z' -> (z <= z')%Z ->
  (z = 0 /\ z' = 0 \/ z = 0 /\ z' = 1 \/ z = 1 /\ z' = 1)%Z.
Proof. unfold is_bit. lia. Qed.

Lemma score_monotone (a b c d e f a' b' c' d' e' f' : Z) :
  is_bit a -> is_bit a' -> (a <= a')%Z ->
  is_bit b -> is_bit b' -> (b <= b')%Z ->
  is_bit c -> is_bit c' -> (c <= c')%Z ->
  is_bit d -> is_bit d' -> (d <= d')%Z ->
  is_bit e -> is_bit e' -> (e <= e')%Z ->
  is_bit f -> is_bit f' -> (f <= f')%Z ->
  (score (float_of_int64 a) (float_of_int64 b) (float_of_int64 c)
         (float_of_int64 d) (float_of_int64 e) (float_of_int64 f)
   <=? score (float_of_int64 a') (float_of_int64 b') (float_of_int64 c')
             (float_of_int64 d') (float_of_int64 e') (float_of_int64 f')) = true /\
  ((a, b, c, d, e, f) <> (a', b', c', d', e', f') ->
   (score (float_of_int64 a) (float_of_int64 b) (float_of_int64 c)
          (float_of_int64 d) (float_of_int64 e) (float_of_int64 f)
    <? score (float_of_int64 a') (float_of_int64 b') (float_of_int64 c')
             (float_of_int64 d') (float_of_int64 e') (float_of_int64 f')) = true).
Proof.
  intros Ha Ha' La Hb Hb' Lb Hc Hc' Lc Hd Hd' Ld He He' Le Hf Hf' Lf.
  destruct (bits_ordered a a' Ha Ha' La) as [[-> ->] | [[-> ->] | [-> ->]]];
  destruct (bits_ordered b b' Hb Hb' Lb) as [[-> ->] | [[-> ->] | [-> ->]]];
  destruct (bits_ordered c c' Hc Hc' Lc) as [[-> ->] | [[-> ->] | [-> ->]]];
  destruct (bits_ordered d d' Hd Hd' Ld) as [[-> ->] | [[-> ->] | [-> ->]]];
  destruct (bits_ordered e e' He He' Le) as [[-> ->] | [[-> ->] | [-> ->]]];
  destruct (bits_ordered f f' Hf Hf' Lf) as [[-> ->] | [[-> ->] | [-> ->]]];
  (split; [vm_compute; reflexivity | intros Hne; first [now vm_compute | now elim Hne]]).
Qed.

(** A bar on which every signal is at least what it is on another bar scores
    at least as much, and strictly more when some signal differs: although the
    weights are added in floating point, setting one more signal always
    raises the score. *)
Theorem more_signals_score_higher (x : indicators) (i j : nat)
    (a b c d e f a' b' c' d' e' f' : Z) (si sj : float) :
  EMA_Signal (i_ema9 x) (i_ema21 x) (i_sma50 x) !! i = Some a ->
  EMA_Signal (i_ema9 x) (i_ema21 x) (i_sma50 x) !! j = Some a' ->
  RSI_Signal (i_rsi x) !! i = Some b -> RSI_Signal (i_rsi x) !! j = Some b' ->
  Stoch_Signal (i_stoch_k x) (i_stoch_d x) !! i = Some c ->
  Stoch_Signal (i_stoch_k x) (i_stoch_d x) !! j = Some c' ->
  VWAP_Signal (i_close x) (i_vwap x) !! i = Some d ->
  VWAP_Signal (i_close x) (i_vwap x) !! j = Some d' ->
  IVP_Signal (i_atr_percentile x) !! i = Some e ->
  IVP_Signal (i_atr_percentile x) !! j = Some e' ->
  PC_Signal (i_vol_ratio x) !! i = Some f -> PC_Signal (i_vol_ratio x) !! j = Some f' ->
  signal_scores x !! i = Some si -> signal_scores x !! j = Some sj ->
  (a <= a')%Z -> (b <= b')%Z -> (c <= c')%Z -> (d <= d')%Z -> (e <= e')%Z -> (f <= f')%Z ->
  (si <=? sj) = true /\
  ((a, b, c, d, e, f) <> (a', b', c', d', e', f') -> (si <? sj) = true).
Proof.
  intros Ha Ha' Hb Hb' Hc Hc' Hd Hd' He He' Hf Hf' Hsi Hsj La Lb Lc Ld Le Lf.
  rewrite (signal_scores_lookup x i a b c d e f) in Hsi by assumption.
  rewrite (signal_scores_lookup x j a' b' c' d' e' f') in Hsj by assumption.
  injection Hsi as <-. injection Hsj as <-.
  pose proof (fun zs k z (H : zs !! k = Some z) (B : Forall is_bit zs) =>
                proj1 (Forall_lookup _ _) B k z H) as bit.
  apply score_monotone; trivial;
    (eapply bit; [eassumption | apply np_where_1_0_bits]).
Qed.

Lemma more_signals_score_higher_witness :
  (score 1 0 1 1 1 1 <=? score 1 1 1 1 1 1) = true /\
  ((1, 0, 1, 1, 1, 1)%Z <> (1, 1, 1, 1, 1, 1)%Z ->
   (score 1 0 1 1 1 1 <? score 1 1 1 1 1 1) = true).
Proof.
  apply (more_signals_score_higher two_bars 0 1 1 0 1 1 1 1 1 1 1 1 1 1
           (score 1 0 1 1 1 1) (score 1 1 1 1 1 1));
    reflexivity || lia.
Defined.

(** ** The exponential averages *)






(** ** The script: loading and display *)

Lemma fetch_data_run yf symbol period interval (h : gmap positive DataFrame) :
  exists df, h !! df = None /\
    fetch_data yf symbol period interval h
    = (Returns df, <[df := yf symbol period interval]> h).
Proof.
  exists (fresh (dom h)). split; [|reflexivity].
  apply not_elem_of_dom, is_fresh.
Qed.

Lemma calculate_indicators_no_close df (h : gmap positive DataFrame) t :
  h !! df = Some t -> series t "Close" = None ->
  calculate_indicators df h = (Raises (KeyError "Close"), h).
Proof.
  intros Ht Hcl. rewrite <- (insert_id h df t Ht) at 1. unfold calculate_indicators.
  py_fail. now rewrite insert_id.
Qed.

Lemma bind_assoc_run {A B C} (m : Py A) (f : A -> Py B) (k : B -> Py C) h :
  (m ≫= (fun a => f a ≫= k)) h = ((m ≫= f) ≫= k) h.
Proof. unfold mbind, Py_bind. destruct (m h) as [[a|e] h']; reflexivity. Qed.

(** One turn of the loading loop is a fetch followed by the pipeline. *)
Lemma load_loop_cons yf symbol rest data (h : gmap positive DataFrame) :
  load_loop yf (symbol :: rest) data h
  = (df ← fetch_data yf symbol "1y" "1d";
     df ← pipeline df;
     load_loop yf rest (dict_set data symbol df)) h.
Proof.
  cbn [load_loop]. unfold mbind at 1 4, Py_bind at 1 4.
  destruct (fetch_data yf symbol "1y" "1d" h) as [[df|e] h1]; [|reflexivity].
  unfold pipeline. now rewrite <- bind_assoc_run.
Qed.

(** One turn of the loading loop on a table with its four series. *)
Lemma load_step yf symbol rest data (h : gmap positive DataFrame) high low close volume :
  delivers (yf symbol "1y" "1d") high low close volume ->
  exists df t',
    h !! df = None /\
    load_loop yf (symbol :: rest) data h
    = load_loop yf rest (dict_set data symbol df) (<[df := t']> h) /\
    index t' = index (yf symbol "1y" "1d") /\
    series t' "Timing_Score"
    = Some (signal_scores (computed_indicators high low close volume)) /\
    series t' "Percentile"
    = Some (Percentile (signal_scores (computed_indicators high low close volume))).
Proof.
  intros (Hhi & Hlo & Hcl & Hvo & _).
  destruct (fetch_data_run yf symbol "1y" "1d" h) as (df & Hnew & Hfetch).
  destruct (pipeline_table (<[df := yf symbol "1y" "1d"]> h) df _ high low close volume
              (lookup_insert_eq _ _ _) Hhi Hlo Hcl Hvo)
    as (t' & Hrun & Hidx & Hts & Hpc).
  exists df, t'. split; [exact Hnew|]. split; [|auto].
  rewrite load_loop_cons, (bind_returns _ _ _ _ _ Hfetch), (bind_returns _ _ _ _ _ Hrun).
  now rewrite insert_insert_eq.
Qed.

(** A turn on a table without [Close] ends the loop. *)
Lemma load_step_no_close yf symbol rest data (h : gmap positive DataFrame) :
  series (yf symbol "1y" "1d") "Close" = None ->
  exists h', load_loop yf (symbol :: rest) data h = (Raises (KeyError "Close"), h').
Proof.
  intros Hcl.
  destruct (fetch_data_run yf symbol "1y" "1d" h) as (df & Hnew & Hfetch).
  eexists. rewrite load_loop_cons, (bind_returns _ _ _ _ _ Hfetch).
  apply bind_raises. unfold pipeline. apply bind_raises.
  apply (calculate_indicators_no_close df _ (yf symbol "1y" "1d"));
    [apply lookup_insert_eq|exact Hcl].
Qed.

Lemma last_signal_Some t high low close volume :
  delivers t high low close volume -> index t <> [] ->
  exists p, last (Percentile (signal_scores (computed_indicators high low close volume)))
            = Some p.
Proof.
  intros (_ & _ & _ & _ & Lh & Ll & Lc & Lv) Hbars.
  destruct (indicator_lengths high low close volume _ Lh Ll Lc Lv)
    as (I1 & I2 & I3 & I4 & I5 & I6 & I7 & I8 & I9 & I10).
  destruct (signal_lengths (computed_indicators high low close volume) _
              I1 I2 I3 I4 I5 I6 Lc I7 I9 I10)
    as (_ & _ & _ & _ & _ & _ & _ & S8).
  cbn [computed_indicators i_ema9 i_ema21 i_sma50 i_rsi i_stoch_k i_stoch_d i_close
       i_vwap i_atr_percentile i_vol_ratio] in S8.
  destruct (last _) as [p|] eqn:E; [eauto|].
  apply last_None in E. rewrite E in S8. destruct (index t); [congruence|discriminate].
Qed.

(** The store after both symbols are loaded, with the reference of each. *)
Lemma load_both yf (h : gmap positive DataFrame) hi1 lo1 c1 v1 hi2 lo2 c2 v2 :
  delivers (yf "SPY" "1y" "1d") hi1 lo1 c1 v1 ->
  delivers (yf "QQQ" "1y" "1d") hi2 lo2 c2 v2 ->
  exists l1 l2 t1 t2,
    l1 <> l2 /\ h !! l1 = None /\ h !! l2 = None /\
    load_loop yf symbols [] h
    = (Returns [("SPY", l1); ("QQQ", l2)], <[l2 := t2]> (<[l1 := t1]> h)) /\
    index t1 = index (yf "SPY" "1y" "1d") /\ index t2 = index (yf "QQQ" "1y" "1d") /\
    series t1 "Timing_Score" = Some (signal_scores (computed_indicators hi1 lo1 c1 v1)) /\
    series t1 "Percentile"
    = Some (Percentile (signal_scores (computed_indicators hi1 lo1 c1 v1))) /\
    series t2 "Timing_Score" = Some (signal_scores (computed_indicators hi2 lo2 c2 v2)) /\
    series t2 "Percentile"
    = Some (Percentile (signal_scores (computed_indicators hi2 lo2 c2 v2))).
Proof.
  intros D1 D2.
  destruct (load_step yf "SPY" ["QQQ"] [] h _ _ _ _ D1)
    as (l1 & t1 & N1 & R1 & X1 & T1 & P1).
  destruct (load_step yf "QQQ" [] (dict_set [] "SPY" l1) (<[l1 := t1]> h) _ _ _ _ D2)
    as (l2 & t2 & N2 & R2 & X2 & T2 & P2).
  assert (Hne : l1 <> l2).
  { intros <-. rewrite lookup_insert_eq in N2. discriminate. }
  exists l1, l2, t1, t2. split; [exact Hne|]. split; [exact N1|].
  split; [now rewrite lookup_insert_ne in N2 by exact Hne|].
  split; [|auto 10].
  unfold symbols. now rewrite R1, R2.
Qed.



(** A symbol whose table lacks the [Close] column stops the script with
    [KeyError('Close')] in the loading loop, before anything is displayed:
    for SPY whatever QQQ's table is, and for QQQ although SPY's table was
    processed. *)
Theorem missing_close_stops_the_script (yf : provider) (h : gmap positive DataFrame) :
  series (yf "SPY" "1y" "1d") "Close" = None \/
  (exists hi lo c v, delivers (yf "SPY" "1y" "1d") hi lo c v) /\
  series (yf "QQQ" "1y" "1d") "Close" = None ->
  exists h', script yf h = (Raises (KeyError "Close"), h') /\
             load_loop yf symbols [] h = (Raises (KeyError "Close"), h').
Proof.
  intros [Hcl | [(hi & lo & c & v & D1) Hcl]].
  - destruct (load_step_no_close yf "SPY" ["QQQ"] [] h Hcl) as (h' & Hrun).
    exists h'. split; [|exact Hrun]. unfold script. now apply bind_raises.
  - destruct (load_step yf "SPY" ["QQQ"] [] h _ _ _ _ D1) as (l1 & t1 & _ & R1 & _).
    destruct (load_step_no_close yf "QQQ" [] (dict_set [] "SPY" l1) (<[l1 := t1]> h) Hcl)
      as (h' & Hrun).
    assert (Hload : load_loop yf symbols [] h = (Raises (KeyError "Close"), h')).
    { unfold symbols. now rewrite R1. }
    exists h'. split; [|exact Hload]. unfold script. now apply bind_raises.
Qed.

Lemma missing_close_stops_the_script_witness :
  (series (no_columns_for_QQQ "SPY" "1y" "1d") "Close" = None \/
   (exists hi lo c v, delivers (no_columns_for_QQQ "SPY" "1y" "1d") hi lo c v) /\
   series (no_columns_for_QQQ "QQQ" "1y" "1d") "Close" = None) /\
  exists h', script no_columns_for_QQQ ∅ = (Raises (KeyError "Close"), h') /\
             load_loop no_columns_for_QQQ symbols [] ∅ = (Raises (KeyError "Close"), h').
Proof.
  assert (H : series (no_columns_for_QQQ "SPY" "1y" "1d") "Close" = None \/
              (exists hi lo c v, delivers (no_columns_for_QQQ "SPY" "1y" "1d") hi lo c v) /\
              series (no_columns_for_QQQ "QQQ" "1y" "1d") "Close" = None).
  { right. split; [|reflexivity].
    exists highs3, lows3, closes3, volumes3. repeat split; reflexivity. }
  split; [exact H|]. exact (missing_close_stops_the_script no_columns_for_QQQ ∅ H).
Defined.

(** When both tables have their columns but one of them has no bars, the
    loading loop completes for both symbols and the display loop raises
    [IndexError] at [df.iloc[-1]] of the table without bars. *)
Theorem symbol_without_bars_stops_the_script (yf : provider) (h : gmap positive DataFrame)
    hi1 lo1 c1 v1 hi2 lo2 c2 v2 :
  delivers (yf "SPY" "1y" "1d") hi1 lo1 c1 v1 ->
  delivers (yf "QQQ" "1y" "1d") hi2 lo2 c2 v2 ->
  index (yf "SPY" "1y" "1d") = [] \/ index (yf "QQQ" "1y" "1d") = [] ->
  exists h', script yf h = (Raises IndexError, h') /\
             exists data, load_loop yf symbols [] h = (Returns data, h').
Proof.
  intros D1 D2 Hbars.
  destruct (load_both yf h _ _ _ _ _ _ _ _ D1 D2)
    as (l1 & l2 & t1 & t2 & Hne & N1 & N2 & Hload & X1 & X2 & T1 & P1 & T2 & P2).
  exists (<[l2 := t2]> (<[l1 := t1]> h)). split; [|eauto].
  unfold script. rewrite (bind_returns _ _ _ _ _ Hload). cbn [display_loop].
  assert (H1 : (<[l2 := t2]> (<[l1 := t1]> h)) !! l1 = Some t1)
    by (now rewrite lookup_insert_ne, lookup_insert_eq by congruence).
  assert (H2 : (<[l2 := t2]> (<[l1 := t1]> h)) !! l2 = Some t2)
    by apply lookup_insert_eq.
  destruct (index (yf "SPY" "1y" "1d")) as [|d ds] eqn:E1.
  - apply bind_raises. apply (latest_signal_no_bars _ l1 t1 H1). congruence.
  - destruct Hbars as [Hb | Hb]; [discriminate|].
    assert (I0 : index (yf "SPY" "1y" "1d") <> []) by (rewrite E1; discriminate).
    assert (I1 : index t1 <> []) by (rewrite X1; discriminate).
    destruct (last_signal_Some _ _ _ _ _ D1 I0) as (p1 & Hp1).
    rewrite (bind_returns _ _ _ _ _
               (latest_signal_run _ l1 t1 _ p1 H1 I1 P1 Hp1 (ex_intro _ _ T1))).
    apply bind_raises, bind_raises.
    apply (latest_signal_no_bars _ l2 t2 H2). congruence.
Qed.

Lemma symbol_without_bars_stops_the_script_witness :
  delivers (no_bars_for_QQQ "SPY" "1y" "1d") highs3 lows3 closes3 volumes3 /\
  delivers (no_bars_for_QQQ "QQQ" "1y" "1d") [] [] [] [] /\
  (index (no_bars_for_QQQ "SPY" "1y" "1d") = [] \/
   index (no_bars_for_QQQ "QQQ" "1y" "1d") = []) /\
  exists h', script no_bars_for_QQQ ∅ = (Raises IndexError, h') /\
             exists data, load_loop no_bars_for_QQQ symbols [] ∅ = (Returns data, h').
Proof.
  assert (D1 : delivers (no_bars_for_QQQ "SPY" "1y" "1d") highs3 lows3 closes3 volumes3)
    by (repeat split; reflexivity).
  assert (D2 : delivers (no_bars_for_QQQ "QQQ" "1y" "1d") [] [] [] [])
    by (repeat split; reflexivity).
  assert (B : index (no_bars_for_QQQ "SPY" "1y" "1d") = [] \/
              index (no_bars_for_QQQ "QQQ" "1y" "1d") = []) by (right; reflexivity).
  split; [exact D1|]. split; [exact D2|]. split; [exact B|].
  exact (symbol_without_bars_stops_the_script no_bars_for_QQQ ∅ _ _ _ _ _ _ _ _ D1 D2 B).
Defined.
